(** * giraffez: the export session object ([src/giraffez/src/exportobject.cc])

    A shallow embedding of the [_tpt.Export] extension type: its constructor,
    its method table and the nine methods behind it, together with the
    properties of the encoding-settings merge, of argument parsing and of the
    session lifecycle.

    [exportobject.cc] is a thin layer over two collaborators whose code lives
    in other files of the repository: the [Giraffez::Connection] class
    ([connection.h]) and the row encoder ([encoder_set_encoding],
    [encoder_set_null], [encoder_set_delimiter]).  Those are modelled from the
    specification and marked as such; everything named [Export_*] follows the
    C++ source line by line. *)

From Stdlib Require Import ZArith List String Ascii Bool Lia.
Import ListNotations.
Local Open Scope Z_scope.

(* ================================================================= *)
(** * Python values at the boundary *)

(** Modelled from the spec: the column type is declared in [schema.h].
    "Each descriptor carries name, declared type, nullability, and byte
    size as reported by the remote transport at stream-open time". *)
Record ColumnDescriptor : Type := {
  column_name : string;
  column_type : Z;
  column_nullable : bool;
  column_size : Z
}.

(** The Python objects that cross the boundary of this module.  A text
    object that can be encoded is given by its UTF-8 encoding
    ([PyUnicode]); one with a lone surrogate among its code points has no
    UTF-8 encoding and is given by its code points
    ([PyUnicodeUnencodable]). *)
Inductive PyObject : Type :=
| Py_None
| PyBool (b : bool)
| PyLong (n : Z)
| PyUnicode (s : string)
| PyUnicodeUnencodable (points : list Z)
| PyBytes (s : string)
| PyColumns (cols : list ColumnDescriptor).

(** The exception left in the interpreter when a call returns [NULL].
    [PyExc_ValueError] carries the value formatted into the message
    ["Encoder set_encoding failed, bad encoding '0x%06x'."]; the other
    constructors are the error classes of the collaborators. *)
Inductive PyErr : Type :=
| ArgumentError
| PyExc_ValueError (bad_encoding : Z)
| ConfigurationError
| EncodingError
| LifecycleError
| ConnectionError
| ProtocolError.

(** A [PyObject*] result: [NULL] with an exception set, or an object. *)
Inductive PyReturn : Type :=
| NULL (e : PyErr)
| Value (o : PyObject).

Definition INT_MIN : Z := - 2 ^ 31.
Definition INT_MAX : Z := 2 ^ 31 - 1.

(** Storing a C [int] through a [uint32_t*] keeps the bit pattern. *)
Definition uint32_of_int (n : Z) : Z := n mod 2 ^ 32.

Definition is_uint32 (n : Z) : Prop := 0 <= n < 2 ^ 32.

(** The C [int] whose bit pattern is the 32-bit value [s]: what a caller
    has to pass for ["i"] to leave [s] in a [uint32_t]. *)
Definition int32_of_uint32 (s : Z) : Z :=
  if s <? 2 ^ 31 then s else s - 2 ^ 32.

(** [~m] on a 32-bit unsigned operand. *)
Definition not32 (m : Z) : Z := Z.land (Z.lnot m) (Z.ones 32).

Fixpoint has_nul (s : string) : bool :=
  match s with
  | EmptyString => false
  | String c r => Ascii.eqb c Ascii.zero || has_nul r
  end.

(** Format unit ["i"]: a Python integer that fits a C [int]. *)
Definition arg_i (o : PyObject) : option Z :=
  match o with
  | PyLong n => if (INT_MIN <=? n) && (n <=? INT_MAX) then Some n else None
  | PyBool b => Some (Z.b2z b)
  | _ => None
  end.

(** Format unit ["s"]: a text object that encodes to UTF-8, without an
    embedded NUL; the C side receives the encoding. *)
Definition arg_s (o : PyObject) : option string :=
  match o with
  | PyUnicode s => if has_nul s then None else Some s
  | PyUnicodeUnencodable _ => None
  | _ => None
  end.

(** [PyArg_ParseTuple(args, "i", &settings)] with [uint32_t settings]. *)
Definition PyArg_ParseTuple_i (args : list PyObject) : option Z :=
  match args with
  | [o] => option_map uint32_of_int (arg_i o)
  | _ => None
  end.

(** [PyArg_ParseTuple(args, "iO", &key, &value)]. *)
Definition PyArg_ParseTuple_iO (args : list PyObject) : option (Z * PyObject) :=
  match args with
  | [k; v] => option_map (fun key => (key, v)) (arg_i k)
  | _ => None
  end.

(** [PyArg_ParseTuple(args, "O", &obj)]. *)
Definition PyArg_ParseTuple_O (args : list PyObject) : option PyObject :=
  match args with
  | [o] => Some o
  | _ => None
  end.

(** [PyArg_ParseTuple(args, "s", &query)]. *)
Definition PyArg_ParseTuple_s (args : list PyObject) : option string :=
  match args with
  | [o] => arg_s o
  | _ => None
  end.

(** [PyArg_ParseTuple(args, "sss", &host, &username, &password)]. *)
Definition PyArg_ParseTuple_sss (args : list PyObject)
  : option (string * string * string) :=
  match args with
  | [h; u; p] =>
      match arg_s h, arg_s u, arg_s p with
      | Some host, Some username, Some password => Some (host, username, password)
      | _, _, _ => None
      end
  | _ => None
  end.

(* ================================================================= *)
(** * Session attributes *)

(** The attribute keys this file names (the vendor's [TD_Attribute]). *)
Inductive TD_Attribute : Type :=
| TD_SYSTEM_OPERATOR
| TD_TDP_ID
| TD_USER_NAME
| TD_USER_PASSWORD
| TD_MIN_SESSIONS
| TD_MAX_SESSIONS
| TD_MAX_DECIMAL_DIGITS
| TD_CHARSET
| TD_BUFFER_MODE
| TD_BLOCK_SIZE
| TD_BUFFER_HEADER_SIZE
| TD_BUFFER_LENGTH_SIZE
| TD_BUFFER_MAX_SIZE
| TD_BUFFER_TRAILER_SIZE
| TD_SPOOLMODE
| TD_TENACITY_HOURS
| TD_TENACITY_SLEEP.

Scheme Equality for TD_Attribute.

Inductive AttributeValue : Type :=
| IntValue (n : Z)
| StrValue (s : string)
| BoolValue (b : bool).

Inductive ValueKind : Type := KInt | KStr | KBool.

Definition kind_of (v : AttributeValue) : ValueKind :=
  match v with
  | IntValue _ => KInt
  | StrValue _ => KStr
  | BoolValue _ => KBool
  end.

Definition ValueKind_eqb (a b : ValueKind) : bool :=
  match a, b with
  | KInt, KInt | KStr, KStr | KBool, KBool => true
  | _, _ => false
  end.

(** The kind each key is given in [Export_init]. *)
Definition expected_kind (k : TD_Attribute) : ValueKind :=
  match k with
  | TD_TDP_ID | TD_USER_NAME | TD_USER_PASSWORD
  | TD_CHARSET | TD_BUFFER_MODE | TD_SPOOLMODE => KStr
  | _ => KInt
  end.

Definition AttributeStore : Type := list (TD_Attribute * AttributeValue).

(** Modelled from the spec: the store is an "ordered mapping from
    attribute-key to a tagged value".  A key already present keeps its
    place and takes the new value, a new key goes to the end. *)
Fixpoint store_set (k : TD_Attribute) (v : AttributeValue) (s : AttributeStore)
  : AttributeStore :=
  match s with
  | [] => [(k, v)]
  | (k', v') :: r =>
      if TD_Attribute_beq k k' then (k, v) :: r else (k', v') :: store_set k v r
  end.

Fixpoint store_get (k : TD_Attribute) (s : AttributeStore) : option AttributeValue :=
  match s with
  | [] => None
  | (k', v') :: r => if TD_Attribute_beq k k' then Some v' else store_get k r
  end.

Definition py_attribute_value (o : PyObject) : option AttributeValue :=
  match o with
  | PyBool b => Some (BoolValue b)
  | PyLong n => Some (IntValue n)
  | PyUnicode s => Some (StrValue s)
  | _ => None
  end.

(* ================================================================= *)
(** * The encoder and the connection *)

(** Modelled from the spec: [TeradataEncoder] is declared with the
    encoder.  This is the part of it this file reads and the encoder calls
    write: the packed settings ([self->conn->encoder->Settings]) and the
    "optional null-marker value and optional delimiter value". *)
Record TeradataEncoder : Type := {
  Settings : Z;
  NullValue : option PyObject;
  Delimiter : option PyObject
}.

(** Modelled from the spec: the lifecycle states of a session. *)
Inductive State : Type := Created | Configured | Active | Terminated.

Definition State_eqb (a b : State) : bool :=
  match a, b with
  | Created, Created | Configured, Configured
  | Active, Active | Terminated, Terminated => true
  | _, _ => false
  end.

Definition pre_active (s : State) : bool :=
  match s with
  | Created | Configured => true
  | _ => false
  end.

(** What the transport answers to a buffer request. *)
Inductive TransportRead : Type :=
| ReadBuffer (bytes : string)
| ReadEnd
| ReadFailed.

(** Modelled from the spec: the class [Giraffez::Connection] is declared in
    [connection.h].  The fields are those of the specification's session;
    [released] counts how often the native handle has been given back and
    [cursor] the buffers pulled so far. *)
Record Connection : Type := {
  host : string;
  username : string;
  password : string;
  attributes : AttributeStore;
  state : State;
  query : option string;
  encoder : TeradataEncoder;
  schema : list ColumnDescriptor;
  cursor : nat;
  released : nat
}.

Definition set_attributes (c : Connection) (a : AttributeStore) : Connection :=
  {| host := host c; username := username c; password := password c;
     attributes := a; state := state c; query := query c;
     encoder := encoder c; schema := schema c; cursor := cursor c;
     released := released c |}.

Definition set_state (c : Connection) (s : State) : Connection :=
  {| host := host c; username := username c; password := password c;
     attributes := attributes c; state := s; query := query c;
     encoder := encoder c; schema := schema c; cursor := cursor c;
     released := released c |}.

Definition set_query_text (c : Connection) (q : string) : Connection :=
  {| host := host c; username := username c; password := password c;
     attributes := attributes c; state := state c; query := Some q;
     encoder := encoder c; schema := schema c; cursor := cursor c;
     released := released c |}.

Definition set_encoder (c : Connection) (e : TeradataEncoder) : Connection :=
  {| host := host c; username := username c; password := password c;
     attributes := attributes c; state := state c; query := query c;
     encoder := e; schema := schema c; cursor := cursor c;
     released := released c |}.

Definition set_schema (c : Connection) (cols : list ColumnDescriptor) : Connection :=
  {| host := host c; username := username c; password := password c;
     attributes := attributes c; state := state c; query := query c;
     encoder := encoder c; schema := cols; cursor := cursor c;
     released := released c |}.

Definition set_cursor (c : Connection) (n : nat) : Connection :=
  {| host := host c; username := username c; password := password c;
     attributes := attributes c; state := state c; query := query c;
     encoder := encoder c; schema := schema c; cursor := n;
     released := released c |}.

Definition release_handle (c : Connection) : Connection :=
  {| host := host c; username := username c; password := password c;
     attributes := attributes c; state := state c; query := query c;
     encoder := encoder c; schema := schema c; cursor := cursor c;
     released := S (released c) |}.

(** The extension object: [conn] is [NULL] until [tp_init] has run. *)
Record Export : Type := { conn : option Connection }.

(** The three encoding categories. *)
Inductive Category : Type := RowReturn | DatetimeReturn | DecimalReturn.

(** The entries of the method table. *)
Inductive Method : Type :=
| add_attribute
| close
| columns
| get_buffer
| initiate
| set_encoding
| set_null
| set_delimiter
| set_query.

(* ================================================================= *)
(** * A sample environment

    The constants and collaborators [exportobject.cc] takes from other
    files are parameters of the model below.  This sample instance is used
    to run the model on concrete inputs. *)

Module Sample.

Definition ROW_RETURN_MASK : Z := 0xff.
Definition DATETIME_RETURN_MASK : Z := 0xff00.
Definition DECIMAL_RETURN_MASK : Z := 0xff0000.
Definition ENCODER_SETTINGS_DEFAULT : Z := 0x010101.

Definition one_of (v : Z) (l : list Z) : bool := existsb (Z.eqb v) l.

(** One supported value per category and nothing outside the categories. *)
Definition valid_encoding (v : Z) : bool :=
  one_of (Z.land v ROW_RETURN_MASK) [0x01; 0x02; 0x04; 0x08]
  && one_of (Z.land v DATETIME_RETURN_MASK) [0x0100; 0x0200]
  && one_of (Z.land v DECIMAL_RETURN_MASK) [0x010000; 0x020000; 0x040000]
  && (Z.shiftr v 24 =? 0).

(** An encoder without any validity check. *)
Definition accept_all (v : Z) : bool := true.

Definition text_or_none (o : PyObject) : bool :=
  match o with
  | Py_None | PyUnicode _ | PyBytes _ => true
  | _ => false
  end.

Definition TD_EXPORT : Z := 1.
Definition TERADATA_CHARSET : string := "UTF8"%string.
Definition TD_ROW_MAX_SIZE : Z := 64256.

Definition TD_Attribute_of_int (n : Z) : option TD_Attribute :=
  match n with
  | 5 => Some TD_MIN_SESSIONS
  | 6 => Some TD_MAX_SESSIONS
  | 7 => Some TD_MAX_DECIMAL_DIGITS
  | 8 => Some TD_CHARSET
  | 15 => Some TD_SPOOLMODE
  | _ => None
  end.

Definition two_columns : list ColumnDescriptor :=
  [ {| column_name := "id"%string; column_type := 496;
       column_nullable := false; column_size := 4 |};
    {| column_name := "name"%string; column_type := 448;
       column_nullable := true; column_size := 64 |} ].

(** A transport that opens the stream once a query has been set. *)
Definition transport_initiate (a : AttributeStore) (q : option string)
  : option (list ColumnDescriptor) :=
  match q with
  | Some _ => Some two_columns
  | None => None
  end.

(** Two buffers, then end of stream. *)
Definition transport_get_buffer (n : nat) : TransportRead :=
  match n with
  | O => ReadBuffer "row-block-0"%string
  | S O => ReadBuffer "row-block-1"%string
  | _ => ReadEnd
  end.

(** A connection of host [h] in state [st] whose encoder stores the
    settings [v] and the overrides [null] and [delim]. *)
Definition connection_full (st : State) (q : option string) (v : Z)
  (null delim : option PyObject) : Connection :=
  {| host := "h"%string; username := "u"%string;
     password := "p"%string; attributes := [];
     state := st; query := q;
     encoder := {| Settings := v; NullValue := null; Delimiter := delim |};
     schema := []; cursor := O; released := O |}.

Definition session_full (st : State) (v : Z) (null delim : option PyObject)
  : Export :=
  {| conn := Some (connection_full st None v null delim) |}.

Definition session_in (st : State) (v : Z) : Export :=
  session_full st v None None.

Definition session (v : Z) : Export := session_in Created v.

(** A configured connection whose query has been set. *)
Definition ready : Connection :=
  connection_full Configured (Some "SELECT id, name FROM t"%string)
    0x010101 None None.

Definition credentials : list PyObject :=
  [PyUnicode "h"; PyUnicode "u"; PyUnicode "p"].

End Sample.

(* ================================================================= *)
(** * The model *)

Section ExportObject.

(** Encoder constants and checks ([encoder.h], not part of this file). *)
Variables ROW_RETURN_MASK DATETIME_RETURN_MASK DECIMAL_RETURN_MASK : Z.
Variable ENCODER_SETTINGS_DEFAULT : Z.
Variable valid_encoding : Z -> bool.
Variables null_kind_ok delimiter_kind_ok : PyObject -> bool.

(** Constants of [common.h] and of the vendor headers. *)
Variable TD_EXPORT : Z.
Variable TERADATA_CHARSET : string.
Variable TD_ROW_MAX_SIZE : Z.
Variable TD_Attribute_of_int : Z -> option TD_Attribute.

(** The vendor transport: the handshake yields the schema of the result
    set or gives up once tenacity is exhausted; buffers are pulled by
    position. *)
Variable transport_initiate :
  AttributeStore -> option string -> option (list ColumnDescriptor).
Variable transport_get_buffer : nat -> TransportRead.

Definition mask_of (k : Category) : Z :=
  match k with
  | RowReturn => ROW_RETURN_MASK
  | DatetimeReturn => DATETIME_RETURN_MASK
  | DecimalReturn => DECIMAL_RETURN_MASK
  end.

(* --------------------------------------------------------------- *)
(** ** Encoder calls *)

(** Modelled from the spec: [encoder_set_encoding] is not in this file.
    "The merged result must pass a validity check (the combination of
    category values must correspond to a supported encoding)";
    on failure the stored settings are left unchanged. The result is the
    C status ([0] for success) and the encoder afterwards. *)
Definition encoder_set_encoding (e : TeradataEncoder) (settings : Z)
  : Z * TeradataEncoder :=
  if valid_encoding settings
  then (0, {| Settings := settings; NullValue := NullValue e;
              Delimiter := Delimiter e |})
  else (-1, e).

(** Modelled from the spec: [encoder_set_null] is not in this file.
    "validate the value's kind against what the encoder expects ...;
    fail with EncodingError on mismatch". *)
Definition encoder_set_null (e : TeradataEncoder) (null : PyObject)
  : PyReturn * TeradataEncoder :=
  if null_kind_ok null
  then (Value Py_None, {| Settings := Settings e; NullValue := Some null;
                          Delimiter := Delimiter e |})
  else (NULL EncodingError, e).

(** Modelled from the spec: [encoder_set_delimiter] is not in this file;
    it validates the delimiter the way [encoder_set_null] validates the
    null marker. *)
Definition encoder_set_delimiter (e : TeradataEncoder) (delimiter : PyObject)
  : PyReturn * TeradataEncoder :=
  if delimiter_kind_ok delimiter
  then (Value Py_None, {| Settings := Settings e; NullValue := NullValue e;
                          Delimiter := Some delimiter |})
  else (NULL EncodingError, e).

(** Modelled from the spec: the encoder a new connection starts with
    holds the default settings and no override. *)
Definition encoder_new : TeradataEncoder :=
  {| Settings := ENCODER_SETTINGS_DEFAULT; NullValue := None;
     Delimiter := None |}.

(* --------------------------------------------------------------- *)
(** ** [Giraffez::Connection] *)

(** Modelled from the spec: the constructor of [Giraffez::Connection]
    ([connection.h]) keeps the three credentials and starts in
    [Created] with an empty attribute store, no query and a handle that
    has not been released. *)
Definition Connection_new (h u p : string) : Connection :=
  {| host := h; username := u; password := p; attributes := [];
     state := Created; query := None; encoder := encoder_new;
     schema := []; cursor := O; released := O |}.

(** Modelled from the spec: the typed [AddAttribute] overloads used by
    the constructor only update the ordered mapping. *)
Definition Connection_AddAttribute_value (c : Connection) (key : TD_Attribute)
  (v : AttributeValue) : Connection :=
  set_attributes c (store_set key v (attributes c)).

(** Modelled from the spec: the [AddAttribute] overload that takes a
    Python object "rejects
    unknown keys and type-mismatched values"; attributes "may only be
    mutated while state is Created or Configured". *)
Definition Connection_AddAttribute (c : Connection) (key : Z) (value : PyObject)
  : PyReturn * Connection :=
  if pre_active (state c) then
    match TD_Attribute_of_int key, py_attribute_value value with
    | Some k, Some v =>
        if ValueKind_eqb (kind_of v) (expected_kind k)
        then (Value Py_None,
              set_state (Connection_AddAttribute_value c k v) Configured)
        else (NULL ConfigurationError, c)
    | _, _ => (NULL ConfigurationError, c)
    end
  else (NULL LifecycleError, c).

(** Modelled from the spec: [SetQuery] is "valid in Created/Configured;
    fails with LifecycleError if Active or Terminated". *)
Definition Connection_SetQuery (c : Connection) (q : string)
  : PyReturn * Connection :=
  if pre_active (state c)
  then (Value Py_None, set_state (set_query_text c q) Configured)
  else (NULL LifecycleError, c).

(** Modelled from the spec: [Initiate] is "valid in Created/Configured";
    on success the state becomes [Active] and the schema reported at
    stream-open time is kept; on failure ([ConnectionError]) the state
    is unchanged. *)
Definition Connection_Initiate (c : Connection) : PyReturn * Connection :=
  if pre_active (state c) then
    match transport_initiate (attributes c) (query c) with
    | Some cols => (Value Py_None, set_state (set_schema c cols) Active)
    | None => (NULL ConnectionError, c)
    end
  else (NULL LifecycleError, c).

(** Modelled from the spec: [Terminate] "releases the native handle ...,
    transitions to Terminated; calling again is a no-op returning
    success". *)
Definition Connection_Terminate (c : Connection) : PyReturn * Connection :=
  match state c with
  | Terminated => (Value Py_None, c)
  | _ => (Value Py_None, set_state (release_handle c) Terminated)
  end.

(** Modelled from the spec: [Columns] is "valid only when state =
    Active"; "calling before Active fails with LifecycleError". *)
Definition Connection_Columns (c : Connection) : PyReturn * Connection :=
  match state c with
  | Active => (Value (PyColumns (schema c)), c)
  | _ => (NULL LifecycleError, c)
  end.

(** Modelled from the spec: [GetBuffer] is "valid only when state =
    Active" and returns the next chunk, the end-of-stream sentinel, or
    fails with [ProtocolError]. *)
Definition Connection_GetBuffer (c : Connection) : PyReturn * Connection :=
  match state c with
  | Active =>
      match transport_get_buffer (cursor c) with
      | ReadBuffer bytes => (Value (PyBytes bytes), set_cursor c (S (cursor c)))
      | ReadEnd => (Value Py_None, c)
      | ReadFailed => (NULL ProtocolError, c)
      end
  | _ => (NULL LifecycleError, c)
  end.

(* --------------------------------------------------------------- *)
(** ** The [Export] object *)

(** [Export_new]: [tp_alloc] hands out zeroed memory. *)
Definition Export_new : Export := {| conn := None |}.

(** A method body that goes through [self->conn]; [None] stands for the
    undefined behaviour of dereferencing a [NULL] connection. *)
Definition on_conn (self : Export) (f : Connection -> PyReturn * Connection)
  : option (PyReturn * Export) :=
  match conn self with
  | None => None
  | Some c => let (r, c') := f c in Some (r, {| conn := Some c' |})
  end.

(** [Export_init], lines 43-93.  The result is the C status. *)
Definition Export_init (self : Export) (args : list PyObject) : Z * Export :=
  match PyArg_ParseTuple_sss args with
  | None => (-1, self)
  | Some (host, username, password) =>
      let c := Connection_new host username password in
      let c := Connection_AddAttribute_value c TD_SYSTEM_OPERATOR (IntValue TD_EXPORT) in
      let c := Connection_AddAttribute_value c TD_TDP_ID (StrValue host) in
      let c := Connection_AddAttribute_value c TD_USER_NAME (StrValue username) in
      let c := Connection_AddAttribute_value c TD_USER_PASSWORD (StrValue password) in
      let c := Connection_AddAttribute_value c TD_MIN_SESSIONS (IntValue 2) in
      let c := Connection_AddAttribute_value c TD_MAX_SESSIONS (IntValue 5) in
      let c := Connection_AddAttribute_value c TD_MAX_DECIMAL_DIGITS (IntValue 38) in
      let c := Connection_AddAttribute_value c TD_CHARSET (StrValue TERADATA_CHARSET) in
      let c := Connection_AddAttribute_value c TD_BUFFER_MODE (StrValue "YES") in
      let c := Connection_AddAttribute_value c TD_BLOCK_SIZE (IntValue 64330) in
      let c := Connection_AddAttribute_value c TD_BUFFER_HEADER_SIZE (IntValue 2) in
      let c := Connection_AddAttribute_value c TD_BUFFER_LENGTH_SIZE (IntValue 2) in
      let c := Connection_AddAttribute_value c TD_BUFFER_MAX_SIZE (IntValue TD_ROW_MAX_SIZE) in
      let c := Connection_AddAttribute_value c TD_BUFFER_TRAILER_SIZE (IntValue 0) in
      let c := Connection_AddAttribute_value c TD_SPOOLMODE (StrValue "NoSpool") in
      let c := Connection_AddAttribute_value c TD_TENACITY_HOURS (IntValue 1) in
      let c := Connection_AddAttribute_value c TD_TENACITY_SLEEP (IntValue 1) in
      (0, {| conn := Some c |})
  end.

(** [Export_add_attribute], lines 95-102. *)
Definition Export_add_attribute (self : Export) (args : list PyObject)
  : option (PyReturn * Export) :=
  match PyArg_ParseTuple_iO args with
  | None => Some (NULL ArgumentError, self)
  | Some (key, value) =>
      on_conn self (fun c => Connection_AddAttribute c key value)
  end.

(** [Export_close], lines 104-106. *)
Definition Export_close (self : Export) : option (PyReturn * Export) :=
  on_conn self Connection_Terminate.

(** [Export_columns], lines 108-110. *)
Definition Export_columns (self : Export) : option (PyReturn * Export) :=
  on_conn self Connection_Columns.

(** [Export_get_buffer], lines 112-114. *)
Definition Export_get_buffer (self : Export) : option (PyReturn * Export) :=
  on_conn self Connection_GetBuffer.

(** The local [new_settings] of [Export_set_encoding] (lines 117 and
    122-130) as a function of the encoder's current settings and of the
    parsed argument. *)
Definition new_settings (current settings : Z) : Z :=
  let new_settings := 0 in
  let new_settings :=
    if Z.land settings ROW_RETURN_MASK =? 0 then new_settings
    else Z.lor (Z.land current (not32 ROW_RETURN_MASK)) settings in
  let new_settings :=
    if Z.land settings DATETIME_RETURN_MASK =? 0 then new_settings
    else Z.lor (Z.land current (not32 DATETIME_RETURN_MASK)) settings in
  let new_settings :=
    if Z.land settings DECIMAL_RETURN_MASK =? 0 then new_settings
    else Z.lor (Z.land current (not32 DECIMAL_RETURN_MASK)) settings in
  new_settings.

(** [Export_set_encoding], lines 116-136. *)
Definition Export_set_encoding (self : Export) (args : list PyObject)
  : option (PyReturn * Export) :=
  match PyArg_ParseTuple_i args with
  | None => Some (NULL ArgumentError, self)
  | Some settings =>
      on_conn self (fun c =>
        let (status, e) :=
          encoder_set_encoding (encoder c)
            (new_settings (Settings (encoder c)) settings) in
        if status =? 0
        then (Value Py_None, set_encoder c e)
        else (NULL (PyExc_ValueError settings), set_encoder c e))
  end.

(** Modelled from the spec: the macro [Py_RETURN_ERROR] of [common.h] is
    not in this file.  Errors "propagate on first occurrence": a [NULL]
    from the callee leaves the method with [NULL] and the callee's
    exception; otherwise the method goes on to [Py_RETURN_NONE].
    [Export_initiate] spells the same test out. *)
Definition Py_RETURN_ERROR_then_NONE (r : PyReturn) : PyReturn :=
  match r with
  | NULL e => NULL e
  | Value _ => Value Py_None
  end.

(** [Export_set_null], lines 138-145. *)
Definition Export_set_null (self : Export) (args : list PyObject)
  : option (PyReturn * Export) :=
  match PyArg_ParseTuple_O args with
  | None => Some (NULL ArgumentError, self)
  | Some null =>
      on_conn self (fun c =>
        let (r, e) := encoder_set_null (encoder c) null in
        (Py_RETURN_ERROR_then_NONE r, set_encoder c e))
  end.

(** [Export_set_delimiter], lines 147-154. *)
Definition Export_set_delimiter (self : Export) (args : list PyObject)
  : option (PyReturn * Export) :=
  match PyArg_ParseTuple_O args with
  | None => Some (NULL ArgumentError, self)
  | Some delimiter =>
      on_conn self (fun c =>
        let (r, e) := encoder_set_delimiter (encoder c) delimiter in
        (Py_RETURN_ERROR_then_NONE r, set_encoder c e))
  end.

(** [Export_initiate], lines 158-163. *)
Definition Export_initiate (self : Export) : option (PyReturn * Export) :=
  on_conn self (fun c =>
    let (r, c') := Connection_Initiate c in
    (Py_RETURN_ERROR_then_NONE r, c')).

(** [Export_set_query], lines 165-171. *)
Definition Export_set_query (self : Export) (args : list PyObject)
  : option (PyReturn * Export) :=
  match PyArg_ParseTuple_s args with
  | None => Some (NULL ArgumentError, self)
  | Some q => on_conn self (fun c => Connection_SetQuery c q)
  end.

(** A [METH_NOARGS] entry: the interpreter refuses arguments before the
    C function is entered. *)
Definition METH_NOARGS (f : Export -> option (PyReturn * Export))
  (self : Export) (args : list PyObject) : option (PyReturn * Export) :=
  match args with
  | [] => f self
  | _ => Some (NULL ArgumentError, self)
  end.

(** [Export_methods], lines 173-184. *)
Definition Export_methods (m : Method)
  : Export -> list PyObject -> option (PyReturn * Export) :=
  match m with
  | add_attribute => Export_add_attribute
  | close => METH_NOARGS Export_close
  | columns => METH_NOARGS Export_columns
  | get_buffer => METH_NOARGS Export_get_buffer
  | initiate => METH_NOARGS Export_initiate
  | set_encoding => Export_set_encoding
  | set_null => Export_set_null
  | set_delimiter => Export_set_delimiter
  | set_query => Export_set_query
  end.

(** A caller's script: method calls one after the other, results
    dropped. *)
Fixpoint run (self : Export) (calls : list (Method * list PyObject))
  : option Export :=
  match calls with
  | [] => Some self
  | (m, args) :: rest =>
      match Export_methods m self args with
      | None => None
      | Some (_, self') => run self' rest
      end
  end.

(* --------------------------------------------------------------- *)
(** ** Observations *)

Definition stored_settings (self : Export) : option Z :=
  option_map (fun c => Settings (encoder c)) (conn self).

Definition session_state (self : Export) : option State :=
  option_map state (conn self).

Definition handle_releases (self : Export) : option nat :=
  option_map released (conn self).

Definition null_marker (self : Export) : option PyObject :=
  match conn self with
  | None => None
  | Some c => NullValue (encoder c)
  end.

Definition delimiter_value (self : Export) : option PyObject :=
  match conn self with
  | None => None
  | Some c => Delimiter (encoder c)
  end.

Definition get_attribute (self : Export) (k : TD_Attribute)
  : option AttributeValue :=
  match conn self with
  | None => None
  | Some c => store_get k (attributes c)
  end.

(** The bits of [v] that belong to category [k]. *)
Definition category_bits (k : Category) (v : Z) : Z :=
  Z.land v (mask_of k).

(** In the words of the specification: the settings [d] with the bits of
    category [k] replaced by the bits [v] has in that category. *)
Definition overwrite_category (k : Category) (v d : Z) : Z :=
  Z.lor (Z.ldiff d (mask_of k)) (Z.land v (mask_of k)).

(** A mask whose set bits all lie in category [k], with at least one. *)
Definition in_category (k : Category) (m : Z) : Prop :=
  m <> 0 /\ Z.land m (mask_of k) = m.

(** The settings the specification's merge asks for: every category in
    which [requested] has a bit takes [requested]'s bits, the others stay. *)
Definition spec_merge (current requested : Z) : Z :=
  let step k d :=
    if category_bits k requested =? 0 then d
    else overwrite_category k requested d in
  step DecimalReturn (step DatetimeReturn (step RowReturn current)).

(** The assignment made by the branch of category [k]: the current
    settings with the category cleared, or-ed with the whole argument. *)
Definition branch (k : Category) (current settings : Z) : Z :=
  Z.lor (Z.land current (not32 (mask_of k))) settings.

(** The last of the three tests that fires, if any. *)
Definition last_category (settings : Z) : option Category :=
  if negb (category_bits DecimalReturn settings =? 0) then Some DecimalReturn
  else if negb (category_bits DatetimeReturn settings =? 0) then Some DatetimeReturn
  else if negb (category_bits RowReturn settings =? 0) then Some RowReturn
  else None.

(** The connection with [v] as the encoder's stored settings. *)
Definition with_settings (c : Connection) (v : Z) : Connection :=
  set_encoder c {| Settings := v; NullValue := NullValue (encoder c);
                   Delimiter := Delimiter (encoder c) |}.

Definition with_null (c : Connection) (o : PyObject) : Connection :=
  set_encoder c {| Settings := Settings (encoder c); NullValue := Some o;
                   Delimiter := Delimiter (encoder c) |}.

Definition with_delimiter (c : Connection) (o : PyObject) : Connection :=
  set_encoder c {| Settings := Settings (encoder c);
                   NullValue := NullValue (encoder c);
                   Delimiter := Some o |}.

Definition is_some {A : Type} (o : option A) : bool :=
  match o with
  | Some _ => true
  | None => false
  end.

(** Whether [args] parse against the signature of method [m]: the format
    string of its [PyArg_ParseTuple] call, or no argument at all for a
    [METH_NOARGS] entry. *)
Definition parses (m : Method) (args : list PyObject) : bool :=
  match m with
  | add_attribute => is_some (PyArg_ParseTuple_iO args)
  | set_encoding => is_some (PyArg_ParseTuple_i args)
  | set_null | set_delimiter => is_some (PyArg_ParseTuple_O args)
  | set_query => is_some (PyArg_ParseTuple_s args)
  | close | columns | get_buffer | initiate =>
      match args with
      | [] => true
      | _ => false
      end
  end.

(** Modelled from the spec: the masks are constants of the encoder's
    header.  The settings are "a 32-bit value logically partitioned into
    three disjoint bit ranges". *)
Definition masks_ok : Prop :=
  is_uint32 ROW_RETURN_MASK /\ is_uint32 DATETIME_RETURN_MASK
  /\ is_uint32 DECIMAL_RETURN_MASK
  /\ Z.land ROW_RETURN_MASK DATETIME_RETURN_MASK = 0
  /\ Z.land ROW_RETURN_MASK DECIMAL_RETURN_MASK = 0
  /\ Z.land DATETIME_RETURN_MASK DECIMAL_RETURN_MASK = 0.

(** The lifecycle keeps the handle released exactly when the session is
    terminated. *)
Definition handle_inv (c : Connection) : Prop :=
  match state c with
  | Terminated => released c = 1%nat
  | _ => released c = O
  end.

(** The bits of [v] that belong to none of the three categories. *)
Definition stray_bits (v : Z) : Z :=
  Z.ldiff (Z.ldiff (Z.ldiff v ROW_RETURN_MASK) DATETIME_RETURN_MASK)
    DECIMAL_RETURN_MASK.

(** A script none of whose calls gets past the parsing of its arguments. *)
Definition all_refused (calls : list (Method * list PyObject)) : bool :=
  forallb (fun call => negb (parses (fst call) (snd call))) calls.

(** The methods that only go through [self->conn->encoder]. *)
Definition encoder_method (m : Method) : bool :=
  match m with
  | set_encoding | set_null | set_delimiter => true
  | _ => false
  end.

(* --------------------------------------------------------------- *)
(** ** Bits *)

Lemma not32_spec (m i : Z) :
  0 <= i -> Z.testbit (not32 m) i = negb (Z.testbit m i) && (i <? 32).
Proof.
  intros Hi. unfold not32.
  now rewrite Z.land_spec, Z.lnot_spec, Z.testbit_ones_nonneg by lia.
Qed.

Lemma uint32_high_bit (m i : Z) :
  is_uint32 m -> 32 <= i -> Z.testbit m i = false.
Proof.
  intros Hm Hi. rewrite <- (Z.mod_small m (2 ^ 32)) by exact Hm.
  apply Z.mod_pow2_bits_high. lia.
Qed.

Lemma disjoint_bit (a b i : Z) :
  Z.land a b = 0 -> Z.testbit a i && Z.testbit b i = false.
Proof.
  intros H. rewrite <- Z.land_spec, H. apply Z.bits_0.
Qed.

Lemma inside_bit (m a i : Z) :
  Z.land m a = m -> Z.testbit m i = Z.testbit m i && Z.testbit a i.
Proof.
  intros H. now rewrite <- Z.land_spec, H.
Qed.

Lemma inside_disjoint (m a b : Z) :
  Z.land m a = m -> Z.land a b = 0 -> Z.land m b = 0.
Proof.
  intros Hm Hab. rewrite <- Hm, <- Z.land_assoc, Hab. apply Z.land_0_r.
Qed.

Lemma lor_absorbs (x s : Z) : Z.land (Z.lor x s) s = s.
Proof.
  apply Z.bits_inj'; intros i _.
  rewrite Z.land_spec, Z.lor_spec.
  destruct (Z.testbit x i), (Z.testbit s i); reflexivity.
Qed.

(** One branch of the merge keeps, outside the mask it clears, the bits
    of the current settings together with those of the request. *)
Lemma branch_outside (cur s m m' : Z) :
  is_uint32 m' -> Z.land m m' = 0 ->
  Z.land (Z.lor (Z.land cur (not32 m)) s) m' = Z.land (Z.lor cur s) m'.
Proof.
  intros Hm' Hd. apply Z.bits_inj'; intros i Hi.
  rewrite !Z.land_spec, !Z.lor_spec, Z.land_spec, not32_spec by exact Hi.
  pose proof (disjoint_bit m m' i Hd) as D.
  destruct (Z.ltb_spec i 32) as [Hlt | Hge].
  - destruct (Z.testbit cur i), (Z.testbit m i), (Z.testbit s i),
      (Z.testbit m' i); simpl in *; congruence.
  - rewrite (uint32_high_bit m' i Hm' Hge), !andb_false_r. reflexivity.
Qed.

(** Inside the mask it clears, a branch leaves the bits of the request. *)
Lemma branch_inside (cur s m : Z) :
  Z.land (Z.lor (Z.land cur (not32 m)) s) m = Z.land s m.
Proof.
  apply Z.bits_inj'; intros i Hi.
  rewrite !Z.land_spec, !Z.lor_spec, Z.land_spec, not32_spec by exact Hi.
  destruct (Z.testbit cur i), (Z.testbit m i), (Z.testbit s i),
    (i <? 32); reflexivity.
Qed.

(* --------------------------------------------------------------- *)
(** ** What [new_settings] computes *)

Lemma new_settings_last (current settings : Z) :
  new_settings current settings =
  match last_category settings with
  | Some k => branch k current settings
  | None => 0
  end.
Proof.
  unfold new_settings, last_category, category_bits, branch; simpl.
  destruct (Z.land settings DECIMAL_RETURN_MASK =? 0);
    destruct (Z.land settings DATETIME_RETURN_MASK =? 0);
    destruct (Z.land settings ROW_RETURN_MASK =? 0); reflexivity.
Qed.

Lemma last_category_some (settings : Z) (k : Category) :
  category_bits k settings <> 0 ->
  exists k', last_category settings = Some k'.
Proof.
  intros H. unfold last_category.
  destruct (Z.eqb_spec (category_bits DecimalReturn settings) 0) as [E1 | _];
    [ | now eexists ].
  destruct (Z.eqb_spec (category_bits DatetimeReturn settings) 0) as [E2 | _];
    [ | now eexists ].
  destruct (Z.eqb_spec (category_bits RowReturn settings) 0) as [E3 | _];
    [ | now eexists ].
  destruct k; contradiction.
Qed.


Lemma masks_uint32 (k : Category) : masks_ok -> is_uint32 (mask_of k).
Proof.
  intros (Hr & Ht & Hd & _). destruct k; assumption.
Qed.

Lemma masks_disjoint (a b : Category) :
  masks_ok -> a <> b -> Z.land (mask_of a) (mask_of b) = 0.
Proof.
  intros (_ & _ & _ & Hrt & Hrd & Htd) Hab.
  destruct a, b; simpl; try contradiction;
    first [ assumption | rewrite Z.land_comm; assumption ].
Qed.

Lemma in_category_other (a b : Category) (m : Z) :
  masks_ok -> a <> b -> in_category a m -> category_bits b m = 0.
Proof.
  intros Hok Hab [_ Hin]. unfold category_bits.
  apply inside_disjoint with (a := mask_of a); auto using masks_disjoint.
Qed.

(** A request confined to one category takes that category's branch. *)
Lemma last_category_single (a : Category) (m : Z) :
  masks_ok -> in_category a m -> last_category m = Some a.
Proof.
  intros Hok Hin. pose proof Hin as [Hnz Hland].
  assert (Ha : category_bits a m <> 0) by (unfold category_bits; congruence).
  unfold last_category.
  destruct a.
  - rewrite (in_category_other RowReturn DecimalReturn m),
      (in_category_other RowReturn DatetimeReturn m) by (auto; discriminate).
    simpl. destruct (Z.eqb_spec (category_bits RowReturn m) 0); simpl;
      [ contradiction | reflexivity ].
  - rewrite (in_category_other DatetimeReturn DecimalReturn m)
      by (auto; discriminate).
    simpl. destruct (Z.eqb_spec (category_bits DatetimeReturn m) 0); simpl;
      [ contradiction | reflexivity ].
  - destruct (Z.eqb_spec (category_bits DecimalReturn m) 0); simpl;
      [ contradiction | reflexivity ].
Qed.

Lemma new_settings_single (a : Category) (current m : Z) :
  masks_ok -> in_category a m -> new_settings current m = branch a current m.
Proof.
  intros Hok Hin. now rewrite new_settings_last, (last_category_single a).
Qed.

(** A single-category request replaces that category and nothing else. *)
Lemma branch_is_overwrite (a : Category) (current m : Z) :
  masks_ok -> is_uint32 current -> in_category a m ->
  branch a current m = overwrite_category a m current.
Proof.
  intros Hok Hc [_ Hin]. unfold branch, overwrite_category.
  rewrite Hin. f_equal.
  apply Z.bits_inj'; intros i Hi.
  rewrite Z.land_spec, Z.ldiff_spec, not32_spec by exact Hi.
  destruct (Z.ltb_spec i 32) as [Hlt | Hge].
  - now rewrite andb_true_r.
  - now rewrite (uint32_high_bit current i Hc Hge).
Qed.

Lemma overwrite_uint32 (a : Category) (m d : Z) :
  masks_ok -> is_uint32 d -> is_uint32 (overwrite_category a m d).
Proof.
  intros Hok Hd. pose proof (masks_uint32 a Hok) as Ha.
  unfold overwrite_category.
  assert (H : Z.lor (Z.ldiff d (mask_of a)) (Z.land m (mask_of a))
              = Z.land (Z.lor (Z.ldiff d (mask_of a)) (Z.land m (mask_of a)))
                  (Z.ones 32)).
  { apply Z.bits_inj'; intros i Hi.
    rewrite Z.land_spec, Z.lor_spec, Z.ldiff_spec, Z.land_spec,
      Z.testbit_ones_nonneg by lia.
    destruct (Z.ltb_spec i 32) as [Hlt | Hge].
    - now rewrite andb_true_r.
    - rewrite (uint32_high_bit d i Hd Hge), (uint32_high_bit _ i Ha Hge).
      now rewrite !andb_false_r. }
  rewrite H, Z.land_ones by lia. unfold is_uint32.
  apply Z.mod_pos_bound. lia.
Qed.

Lemma overwrite_same (a : Category) (m d : Z) :
  category_bits a (overwrite_category a m d) = category_bits a m.
Proof.
  unfold category_bits, overwrite_category.
  apply Z.bits_inj'; intros i Hi.
  rewrite !Z.land_spec, Z.lor_spec, Z.ldiff_spec, Z.land_spec.
  destruct (Z.testbit d i), (Z.testbit m i), (Z.testbit (mask_of a) i);
    reflexivity.
Qed.

Lemma overwrite_other (a k : Category) (m d : Z) :
  masks_ok -> k <> a ->
  category_bits k (overwrite_category a m d) = category_bits k d.
Proof.
  intros Hok Hka. unfold category_bits, overwrite_category.
  apply Z.bits_inj'; intros i Hi.
  rewrite !Z.land_spec, Z.lor_spec, Z.ldiff_spec, Z.land_spec.
  pose proof (disjoint_bit _ _ i (masks_disjoint k a Hok Hka)) as D.
  destruct (Z.testbit d i), (Z.testbit m i), (Z.testbit (mask_of a) i),
    (Z.testbit (mask_of k) i); simpl in *; congruence.
Qed.

Lemma overwrite_commutes (a b : Category) (m1 m2 d : Z) :
  masks_ok -> a <> b ->
  overwrite_category a m1 (overwrite_category b m2 d)
  = overwrite_category b m2 (overwrite_category a m1 d).
Proof.
  intros Hok Hab. unfold overwrite_category.
  apply Z.bits_inj'; intros i Hi.
  rewrite !Z.lor_spec, !Z.ldiff_spec, !Z.lor_spec, !Z.ldiff_spec, !Z.land_spec.
  pose proof (disjoint_bit _ _ i (masks_disjoint a b Hok Hab)) as D.
  destruct (Z.testbit d i), (Z.testbit m1 i), (Z.testbit m2 i),
    (Z.testbit (mask_of a) i), (Z.testbit (mask_of b) i);
    simpl in *; congruence.
Qed.

(* --------------------------------------------------------------- *)
(** ** The categories after a merge *)

(** The category whose branch runs last takes the request's bits. *)
Lemma new_settings_last_category (k : Category) (current settings : Z) :
  last_category settings = Some k ->
  category_bits k (new_settings current settings) = category_bits k settings.
Proof.
  intros Hk. rewrite new_settings_last, Hk. apply branch_inside.
Qed.

(** Every other category ends up with the bits it had, or-ed with the
    bits the request has there. *)
Lemma new_settings_other_category (k k' : Category) (current settings : Z) :
  masks_ok -> last_category settings = Some k -> k' <> k ->
  category_bits k' (new_settings current settings)
  = Z.lor (category_bits k' current) (category_bits k' settings).
Proof.
  intros Hok Hk Hne. rewrite new_settings_last, Hk.
  unfold category_bits, branch.
  rewrite branch_outside, Z.land_lor_distr_l;
    auto using masks_uint32, masks_disjoint.
Qed.

(** A request with bits in one category only: that category is replaced
    and the two others keep their bits. *)
Lemma new_settings_one_category (k : Category) (current settings : Z) :
  masks_ok -> last_category settings = Some k ->
  (forall k', k' <> k -> category_bits k' settings = 0) ->
  category_bits k (new_settings current settings) = category_bits k settings
  /\ (forall k', k' <> k ->
      category_bits k' (new_settings current settings)
      = category_bits k' current).
Proof.
  intros Hok Hk Hothers. split.
  - now apply new_settings_last_category.
  - intros k' Hne.
    rewrite (new_settings_other_category k k') by assumption.
    rewrite (Hothers k' Hne). apply Z.lor_0_r.
Qed.


(** On a request confined to one category the code computes what the
    specification's merge asks for. *)
Lemma new_settings_single_is_spec_merge (a : Category) (d m : Z) :
  masks_ok -> is_uint32 d -> in_category a m ->
  new_settings d m = spec_merge d m.
Proof.
  intros Hok Hd Hin.
  rewrite (new_settings_single a d m Hok Hin),
    (branch_is_overwrite a d m Hok Hd Hin).
  assert (Ha : (category_bits a m =? 0) = false).
  { destruct Hin as [Hnz Hland]. apply Z.eqb_neq.
    unfold category_bits. congruence. }
  unfold spec_merge. destruct a.
  - rewrite Ha, (in_category_other RowReturn DatetimeReturn m),
      (in_category_other RowReturn DecimalReturn m) by (auto; discriminate).
    reflexivity.
  - rewrite Ha, (in_category_other DatetimeReturn RowReturn m),
      (in_category_other DatetimeReturn DecimalReturn m) by (auto; discriminate).
    reflexivity.
  - rewrite Ha, (in_category_other DecimalReturn RowReturn m),
      (in_category_other DecimalReturn DatetimeReturn m) by (auto; discriminate).
    reflexivity.
Qed.

(** The parsed argument is a 32-bit value. *)
Lemma PyArg_ParseTuple_i_uint32 (args : list PyObject) (settings : Z) :
  PyArg_ParseTuple_i args = Some settings -> is_uint32 settings.
Proof.
  unfold PyArg_ParseTuple_i.
  destruct args as [ | o [ | ? ? ] ]; try discriminate.
  destruct (arg_i o) as [n | ]; simpl; [ | discriminate ].
  intros [= <-]. unfold uint32_of_int, is_uint32.
  apply Z.mod_pos_bound. reflexivity.
Qed.


(* --------------------------------------------------------------- *)
(** ** [Export_set_encoding] *)

Lemma set_encoder_same (c : Connection) : set_encoder c (encoder c) = c.
Proof. destruct c; reflexivity. Qed.

Lemma Export_eta (self : Export) (c : Connection) :
  conn self = Some c -> self = {| conn := Some c |}.
Proof. destruct self; simpl; intros ->; reflexivity. Qed.

Lemma with_settings_twice (c : Connection) (v w : Z) :
  with_settings (with_settings c v) w = with_settings c w.
Proof. reflexivity. Qed.

Lemma set_encoding_accepted (self : Export) (c : Connection)
    (args : list PyObject) (settings : Z) :
  conn self = Some c ->
  PyArg_ParseTuple_i args = Some settings ->
  valid_encoding (new_settings (Settings (encoder c)) settings) = true ->
  Export_set_encoding self args =
  Some (Value Py_None,
        {| conn := Some (with_settings c
                           (new_settings (Settings (encoder c)) settings)) |}).
Proof.
  intros Hc Hp Hv. unfold Export_set_encoding, on_conn, encoder_set_encoding.
  rewrite Hp, Hc, Hv. reflexivity.
Qed.

Lemma set_encoding_refused (self : Export) (c : Connection)
    (args : list PyObject) (settings : Z) :
  conn self = Some c ->
  PyArg_ParseTuple_i args = Some settings ->
  valid_encoding (new_settings (Settings (encoder c)) settings) = false ->
  Export_set_encoding self args = Some (NULL (PyExc_ValueError settings), self).
Proof.
  intros Hc Hp Hv. unfold Export_set_encoding, on_conn, encoder_set_encoding.
  rewrite Hp, Hc, Hv. simpl.
  now rewrite set_encoder_same, <- (Export_eta self c Hc).
Qed.

Lemma run_set_encoding_twice (c : Connection) (args1 args2 : list PyObject)
    (m1 m2 : Z) :
  PyArg_ParseTuple_i args1 = Some m1 ->
  PyArg_ParseTuple_i args2 = Some m2 ->
  valid_encoding (new_settings (Settings (encoder c)) m1) = true ->
  valid_encoding
    (new_settings (new_settings (Settings (encoder c)) m1) m2) = true ->
  run {| conn := Some c |} [(set_encoding, args1); (set_encoding, args2)] =
  Some {| conn := Some (with_settings c
            (new_settings (new_settings (Settings (encoder c)) m1) m2)) |}.
Proof.
  intros Hp1 Hp2 Hv1 Hv2. simpl.
  rewrite (set_encoding_accepted {| conn := Some c |} c args1 m1 eq_refl Hp1 Hv1).
  rewrite (set_encoding_accepted {| conn := Some (with_settings c _) |} _
             args2 m2 eq_refl Hp2 Hv2).
  reflexivity.
Qed.

Lemma two_single_categories (a b : Category) (d m1 m2 : Z) :
  masks_ok -> is_uint32 d -> in_category a m1 -> in_category b m2 ->
  new_settings (new_settings d m1) m2
  = overwrite_category b m2 (overwrite_category a m1 d).
Proof.
  intros Hok Hd H1 H2.
  rewrite (new_settings_single a d m1 Hok H1), (branch_is_overwrite a d m1 Hok Hd H1).
  rewrite (new_settings_single b _ m2 Hok H2).
  apply branch_is_overwrite; auto using overwrite_uint32.
Qed.

(** C2, as amended.  Two requests confined to two different categories,
    applied one after the other to settings [d], give [d] with both categories
    overwritten and the third untouched, whichever request comes first;
    when the encoder accepts the values it is handed, these are the
    settings stored after the two [set_encoding] calls, in either order. *)
Theorem set_encoding_disjoint_categories_commute
    (a b : Category) (d m1 m2 : Z) :
  masks_ok -> is_uint32 d -> a <> b ->
  in_category a m1 -> in_category b m2 ->
  let r := overwrite_category b m2 (overwrite_category a m1 d) in
  new_settings (new_settings d m1) m2 = r
  /\ new_settings (new_settings d m2) m1 = r
  /\ category_bits a r = m1
  /\ category_bits b r = m2
  /\ (forall k, k <> a -> k <> b -> category_bits k r = category_bits k d)
  /\ (forall c args1 args2,
        Settings (encoder c) = d ->
        PyArg_ParseTuple_i args1 = Some m1 ->
        PyArg_ParseTuple_i args2 = Some m2 ->
        valid_encoding (new_settings d m1) = true ->
        valid_encoding (new_settings d m2) = true ->
        valid_encoding r = true ->
        run {| conn := Some c |} [(set_encoding, args1); (set_encoding, args2)]
        = Some {| conn := Some (with_settings c r) |}
        /\ run {| conn := Some c |} [(set_encoding, args2); (set_encoding, args1)]
           = Some {| conn := Some (with_settings c r) |}).
Proof.
  intros Hok Hd Hab H1 H2 r.
  assert (E12 : new_settings (new_settings d m1) m2 = r)
    by (apply two_single_categories; assumption).
  assert (E21 : new_settings (new_settings d m2) m1 = r).
  { rewrite (two_single_categories b a d m2 m1) by assumption.
    apply overwrite_commutes; assumption. }
  repeat split.
  - exact E12.
  - exact E21.
  - unfold r. rewrite overwrite_other, overwrite_same by auto.
    destruct H1 as [_ H1]. exact H1.
  - unfold r. rewrite overwrite_same. destruct H2 as [_ H2]. exact H2.
  - intros k Hka Hkb. unfold r. now rewrite !overwrite_other by auto.
  - subst d. rewrite <- E12 in *.
    apply run_set_encoding_twice; assumption.
  - subst d. rewrite <- E21 in *.
    apply run_set_encoding_twice; assumption.
Qed.

(** C4.  When the encoder's validity check refuses the merged value,
    [set_encoding] returns [NULL] with a [ValueError] that carries the
    requested mask, and the whole session, stored settings included, is
    what it was before the call. *)
Theorem set_encoding_invalid_raises_and_rolls_back
    (self : Export) (c : Connection) (args : list PyObject) (settings : Z) :
  conn self = Some c ->
  PyArg_ParseTuple_i args = Some settings ->
  valid_encoding (new_settings (Settings (encoder c)) settings) = false ->
  exists self',
    Export_set_encoding self args = Some (NULL (PyExc_ValueError settings), self')
    /\ self' = self
    /\ stored_settings self' = Some (Settings (encoder c)).
Proof.
  intros Hc Hp Hv. exists self. split; [ | split ].
  - now apply set_encoding_refused with (c := c).
  - reflexivity.
  - unfold stored_settings. now rewrite Hc.
Qed.

(** C9.  When the requested mask has a bit in some category, every bit
    of the requested mask, the bits outside the three categories
    included, is set in the value handed to [encoder_set_encoding]; an
    encoder that accepts the value stores those bits. *)
Theorem set_encoding_passes_whole_mask
    (self : Export) (c : Connection) (args : list PyObject)
    (settings : Z) (k : Category) :
  conn self = Some c ->
  PyArg_ParseTuple_i args = Some settings ->
  category_bits k settings <> 0 ->
  let submitted := new_settings (Settings (encoder c)) settings in
  Z.land submitted settings = settings
  /\ (forall i, Z.testbit settings i = true -> Z.testbit submitted i = true)
  /\ Export_set_encoding self args =
     Some (let (status, e) := encoder_set_encoding (encoder c) submitted in
           (if status =? 0 then Value Py_None
            else NULL (PyExc_ValueError settings),
            {| conn := Some (set_encoder c e) |}))
  /\ (valid_encoding submitted = true ->
      exists self',
        Export_set_encoding self args = Some (Value Py_None, self')
        /\ stored_settings self' = Some submitted).
Proof.
  intros Hc Hp Hk submitted.
  assert (Habs : Z.land submitted settings = settings).
  { unfold submitted. rewrite new_settings_last.
    destruct (last_category_some settings k Hk) as [k' ->].
    apply lor_absorbs. }
  split; [ exact Habs | split; [ | split ] ].
  - intros i Hi. rewrite <- Habs, Z.land_spec in Hi.
    now apply andb_true_iff in Hi.
  - unfold Export_set_encoding, on_conn. rewrite Hp, Hc.
    fold submitted.
    destruct (encoder_set_encoding (encoder c) submitted) as [status e].
    destruct (status =? 0); reflexivity.
  - intros Hv. eexists. split.
    + apply set_encoding_accepted with (c := c);
        [ exact Hc | exact Hp | exact Hv ].
    + reflexivity.
Qed.

(* --------------------------------------------------------------- *)
(** ** Argument parsing *)

(** C10.  When the arguments do not parse against a method's signature,
    the call returns [NULL] at once and hands back the very object it was
    given, for every object, one whose connection is still [NULL]
    included: attributes, query, settings, null marker and delimiter
    are neither read nor written. *)
Theorem parse_failure_touches_nothing
    (m : Method) (self : Export) (args : list PyObject) :
  parses m args = false ->
  Export_methods m self args = Some (NULL ArgumentError, self).
Proof.
  destruct m; simpl; intros Hp.
  - unfold Export_add_attribute.
    destruct (PyArg_ParseTuple_iO args); [ discriminate | reflexivity ].
  - destruct args; [ discriminate | reflexivity ].
  - destruct args; [ discriminate | reflexivity ].
  - destruct args; [ discriminate | reflexivity ].
  - destruct args; [ discriminate | reflexivity ].
  - unfold Export_set_encoding.
    destruct (PyArg_ParseTuple_i args); [ discriminate | reflexivity ].
  - unfold Export_set_null.
    destruct (PyArg_ParseTuple_O args); [ discriminate | reflexivity ].
  - unfold Export_set_delimiter.
    destruct (PyArg_ParseTuple_O args); [ discriminate | reflexivity ].
  - unfold Export_set_query.
    destruct (PyArg_ParseTuple_s args); [ discriminate | reflexivity ].
Qed.

(* --------------------------------------------------------------- *)
(** ** Construction *)

(** C5.  Whatever host, user name and password the constructor parses,
    the attribute store it leaves holds the operator and the three
    credentials followed by exactly the thirteen defaults. *)
Theorem init_populates_defaults
    (self : Export) (args : list PyObject) (h u p : string) :
  PyArg_ParseTuple_sss args = Some (h, u, p) ->
  exists c,
    Export_init self args = (0, {| conn := Some c |})
    /\ state c = Created
    /\ attributes c =
       [ (TD_SYSTEM_OPERATOR, IntValue TD_EXPORT);
         (TD_TDP_ID, StrValue h);
         (TD_USER_NAME, StrValue u);
         (TD_USER_PASSWORD, StrValue p);
         (TD_MIN_SESSIONS, IntValue 2);
         (TD_MAX_SESSIONS, IntValue 5);
         (TD_MAX_DECIMAL_DIGITS, IntValue 38);
         (TD_CHARSET, StrValue TERADATA_CHARSET);
         (TD_BUFFER_MODE, StrValue "YES");
         (TD_BLOCK_SIZE, IntValue 64330);
         (TD_BUFFER_HEADER_SIZE, IntValue 2);
         (TD_BUFFER_LENGTH_SIZE, IntValue 2);
         (TD_BUFFER_MAX_SIZE, IntValue TD_ROW_MAX_SIZE);
         (TD_BUFFER_TRAILER_SIZE, IntValue 0);
         (TD_SPOOLMODE, StrValue "NoSpool");
         (TD_TENACITY_HOURS, IntValue 1);
         (TD_TENACITY_SLEEP, IntValue 1) ]
    /\ get_attribute {| conn := Some c |} TD_MIN_SESSIONS = Some (IntValue 2)
    /\ get_attribute {| conn := Some c |} TD_MAX_SESSIONS = Some (IntValue 5)
    /\ get_attribute {| conn := Some c |} TD_MAX_DECIMAL_DIGITS = Some (IntValue 38)
    /\ get_attribute {| conn := Some c |} TD_CHARSET = Some (StrValue TERADATA_CHARSET)
    /\ get_attribute {| conn := Some c |} TD_BUFFER_MODE = Some (StrValue "YES")
    /\ get_attribute {| conn := Some c |} TD_BLOCK_SIZE = Some (IntValue 64330)
    /\ get_attribute {| conn := Some c |} TD_BUFFER_HEADER_SIZE = Some (IntValue 2)
    /\ get_attribute {| conn := Some c |} TD_BUFFER_LENGTH_SIZE = Some (IntValue 2)
    /\ get_attribute {| conn := Some c |} TD_BUFFER_TRAILER_SIZE = Some (IntValue 0)
    /\ get_attribute {| conn := Some c |} TD_BUFFER_MAX_SIZE = Some (IntValue TD_ROW_MAX_SIZE)
    /\ get_attribute {| conn := Some c |} TD_SPOOLMODE = Some (StrValue "NoSpool")
    /\ get_attribute {| conn := Some c |} TD_TENACITY_HOURS = Some (IntValue 1)
    /\ get_attribute {| conn := Some c |} TD_TENACITY_SLEEP = Some (IntValue 1).
Proof.
  intros Hp. unfold Export_init. rewrite Hp.
  eexists. split; [ reflexivity | ].
  repeat split.
Qed.

(* --------------------------------------------------------------- *)
(** ** Lifecycle *)

Lemma on_conn_some (c : Connection) (f : Connection -> PyReturn * Connection) :
  on_conn {| conn := Some c |} f
  = Some (fst (f c), {| conn := Some (snd (f c)) |}).
Proof. unfold on_conn; simpl. destruct (f c); reflexivity. Qed.

Lemma init_handle_inv (self : Export) (args : list PyObject) :
  fst (Export_init self args) = 0 ->
  exists c, snd (Export_init self args) = {| conn := Some c |}
            /\ state c = Created /\ handle_inv c.
Proof.
  unfold Export_init.
  destruct (PyArg_ParseTuple_sss args) as [[[h u] p] | ]; simpl.
  - intros _. eexists. split; [ reflexivity | split; reflexivity ].
  - discriminate.
Qed.

Lemma Terminate_handle_inv (c : Connection) :
  handle_inv c ->
  fst (Connection_Terminate c) = Value Py_None
  /\ state (snd (Connection_Terminate c)) = Terminated
  /\ released (snd (Connection_Terminate c)) = 1%nat.
Proof.
  unfold handle_inv, Connection_Terminate.
  destruct (state c) eqn:E; simpl; intros H; rewrite ?H, ?E; auto.
Qed.

Lemma Terminate_again (c : Connection) :
  state c = Terminated -> Connection_Terminate c = (Value Py_None, c).
Proof. unfold Connection_Terminate. now intros ->. Qed.

(** Every connection method keeps [handle_inv]. *)
Lemma AddAttribute_handle_inv (c : Connection) (key : Z) (value : PyObject) :
  handle_inv c -> handle_inv (snd (Connection_AddAttribute c key value)).
Proof.
  unfold Connection_AddAttribute, handle_inv.
  destruct (state c) eqn:E; simpl; rewrite ?E; auto;
    destruct (TD_Attribute_of_int key), (py_attribute_value value);
    simpl; rewrite ?E; auto;
    destruct (ValueKind_eqb _ _); simpl; rewrite ?E; auto.
Qed.

Lemma SetQuery_handle_inv (c : Connection) (q : string) :
  handle_inv c -> handle_inv (snd (Connection_SetQuery c q)).
Proof.
  unfold Connection_SetQuery, handle_inv.
  destruct (state c) eqn:E; simpl; rewrite ?E; auto.
Qed.

Lemma Initiate_handle_inv (c : Connection) :
  handle_inv c -> handle_inv (snd (Connection_Initiate c)).
Proof.
  unfold Connection_Initiate, handle_inv.
  destruct (state c) eqn:E; simpl; rewrite ?E; auto;
    destruct (transport_initiate _ _); simpl; rewrite ?E; auto.
Qed.

Lemma Columns_handle_inv (c : Connection) :
  handle_inv c -> handle_inv (snd (Connection_Columns c)).
Proof.
  unfold Connection_Columns. destruct (state c); auto.
Qed.

Lemma GetBuffer_handle_inv (c : Connection) :
  handle_inv c -> handle_inv (snd (Connection_GetBuffer c)).
Proof.
  unfold Connection_GetBuffer, handle_inv.
  destruct (state c) eqn:E; simpl; rewrite ?E; auto.
  destruct (transport_get_buffer _); simpl; rewrite ?E; auto.
Qed.

Lemma Terminate_keeps_handle_inv (c : Connection) :
  handle_inv c -> handle_inv (snd (Connection_Terminate c)).
Proof.
  intros H. destruct (Terminate_handle_inv c H) as (_ & Hs & Hr).
  unfold handle_inv. now rewrite Hs.
Qed.

Lemma set_encoder_handle_inv (c : Connection) (e : TeradataEncoder) :
  handle_inv c -> handle_inv (set_encoder c e).
Proof. auto. Qed.

Local Ltac kept H :=
  do 2 eexists; split; [ reflexivity | exact H ].

(** A method called on a constructed object returns, and the object it
    leaves is constructed and keeps [handle_inv]. *)
Lemma method_handle_inv (m : Method) (c : Connection) (args : list PyObject) :
  handle_inv c ->
  exists r c', Export_methods m {| conn := Some c |} args
               = Some (r, {| conn := Some c' |})
               /\ handle_inv c'.
Proof.
  intros H. destruct m; cbv [Export_methods METH_NOARGS].
  - unfold Export_add_attribute.
    destruct (PyArg_ParseTuple_iO args) as [[key value] | ]; [ | kept H ].
    rewrite on_conn_some. kept (AddAttribute_handle_inv c key value H).
  - destruct args; [ | kept H ]. unfold Export_close.
    rewrite on_conn_some. kept (Terminate_keeps_handle_inv c H).
  - destruct args; [ | kept H ]. unfold Export_columns.
    rewrite on_conn_some. kept (Columns_handle_inv c H).
  - destruct args; [ | kept H ]. unfold Export_get_buffer.
    rewrite on_conn_some. kept (GetBuffer_handle_inv c H).
  - destruct args; [ | kept H ]. unfold Export_initiate.
    rewrite on_conn_some.
    pose proof (Initiate_handle_inv c H) as H'.
    destruct (Connection_Initiate c); kept H'.
  - unfold Export_set_encoding.
    destruct (PyArg_ParseTuple_i args); [ | kept H ].
    rewrite on_conn_some.
    destruct (encoder_set_encoding _ _) as [status e].
    destruct (status =? 0); kept H.
  - unfold Export_set_null.
    destruct (PyArg_ParseTuple_O args); [ | kept H ].
    rewrite on_conn_some.
    destruct (encoder_set_null _ _); kept H.
  - unfold Export_set_delimiter.
    destruct (PyArg_ParseTuple_O args); [ | kept H ].
    rewrite on_conn_some.
    destruct (encoder_set_delimiter _ _); kept H.
  - unfold Export_set_query.
    destruct (PyArg_ParseTuple_s args) as [q | ]; [ | kept H ].
    rewrite on_conn_some. kept (SetQuery_handle_inv c q H).
Qed.

Lemma run_handle_inv (calls : list (Method * list PyObject)) :
  forall c, handle_inv c ->
  exists c', run {| conn := Some c |} calls = Some {| conn := Some c' |}
             /\ handle_inv c'.
Proof.
  induction calls as [ | [m args] rest IH]; intros c H; simpl.
  - eauto.
  - destruct (method_handle_inv m c args H) as (r & c1 & -> & H1).
    apply IH, H1.
Qed.

(** [Close] works in every state: it returns [None], leaves the session
    [Terminated] with the handle released once, and is a no-op from
    there on. *)
Lemma close_from_any_state (c : Connection) :
  handle_inv c ->
  exists c',
    Export_close {| conn := Some c |} = Some (Value Py_None, {| conn := Some c' |})
    /\ state c' = Terminated /\ released c' = 1%nat
    /\ Export_close {| conn := Some c' |}
       = Some (Value Py_None, {| conn := Some c' |}).
Proof.
  intros H. destruct (Terminate_handle_inv c H) as (Hr & Hs & Hn).
  exists (snd (Connection_Terminate c)).
  unfold Export_close. rewrite !on_conn_some, Hr.
  rewrite (Terminate_again _ Hs). simpl. auto.
Qed.

Lemma run_closes (s : Export) (n : nat) :
  Export_close s = Some (Value Py_None, s) ->
  run s (repeat (close, []) n) = Some s.
Proof.
  intros H. induction n as [ | n IH]; simpl; [ reflexivity | ].
  now rewrite H.
Qed.

(** C6.  After construction and any script of method calls, whether or
    not an [initiate] in it succeeded, [close] returns [None] and leaves
    the session [Terminated] with the native handle released exactly
    once; every further [close] returns [None] and changes nothing. *)
Theorem close_releases_once_and_is_idempotent
    (self : Export) (args : list PyObject)
    (calls : list (Method * list PyObject)) :
  fst (Export_init self args) = 0 ->
  exists s s',
    run (snd (Export_init self args)) calls = Some s
    /\ Export_close s = Some (Value Py_None, s')
    /\ session_state s' = Some Terminated
    /\ handle_releases s' = Some 1%nat
    /\ Export_close s' = Some (Value Py_None, s')
    /\ (forall n, run s' (repeat (close, []) n) = Some s').
Proof.
  intros Hinit.
  destruct (init_handle_inv self args Hinit) as (c0 & -> & _ & H0).
  destruct (run_handle_inv calls c0 H0) as (c1 & Hrun & H1).
  destruct (close_from_any_state c1 H1) as (c2 & Hclose & Hs & Hr & Hagain).
  exists {| conn := Some c1 |}, {| conn := Some c2 |}.
  repeat split; try assumption.
  - unfold session_state; simpl. now rewrite Hs.
  - unfold handle_releases; simpl. now rewrite Hr.
  - intros n. now apply run_closes.
Qed.

Lemma columns_outside_active (c : Connection) :
  state c <> Active ->
  Export_columns {| conn := Some c |}
  = Some (NULL LifecycleError, {| conn := Some c |}).
Proof.
  intros H. unfold Export_columns, Connection_Columns. rewrite on_conn_some.
  destruct (state c); try reflexivity. contradiction.
Qed.

Lemma initiate_success (c : Connection) (self' : Export) :
  Export_initiate {| conn := Some c |} = Some (Value Py_None, self') ->
  exists cols,
    transport_initiate (attributes c) (query c) = Some cols
    /\ self' = {| conn := Some (set_state (set_schema c cols) Active) |}.
Proof.
  unfold Export_initiate, Connection_Initiate. rewrite on_conn_some.
  destruct (pre_active (state c)); simpl; [ | discriminate ].
  destruct (transport_initiate _ _) as [cols | ]; simpl; [ | discriminate ].
  intros [= <-]. eauto.
Qed.

(** [columns] fails with [LifecycleError] in every state but [Active], so
    in particular on a freshly constructed session; once [initiate] has
    succeeded it returns the column descriptors the transport reported
    when the stream was opened, in the order reported. *)
Theorem columns_only_when_active (c : Connection) :
  (state c <> Active ->
   Export_columns {| conn := Some c |}
   = Some (NULL LifecycleError, {| conn := Some c |}))
  /\ (forall self args,
        fst (Export_init self args) = 0 ->
        Export_columns (snd (Export_init self args))
        = Some (NULL LifecycleError, snd (Export_init self args)))
  /\ (forall self',
        Export_initiate {| conn := Some c |} = Some (Value Py_None, self') ->
        exists cols,
          transport_initiate (attributes c) (query c) = Some cols
          /\ session_state self' = Some Active
          /\ Export_columns self' = Some (Value (PyColumns cols), self')).
Proof.
  split; [ | split ].
  - apply columns_outside_active.
  - intros self args Hinit.
    destruct (init_handle_inv self args Hinit) as (c0 & -> & Hs & _).
    apply columns_outside_active. rewrite Hs. discriminate.
  - intros self' Hi.
    destruct (initiate_success c self' Hi) as (cols & Ht & ->).
    exists cols. repeat split; assumption || reflexivity.
Qed.

(** C8, as amended.  [set_null] and [set_delimiter] do not look at the
    session state: in every state, [Active] included, a value whose kind
    the encoder refuses makes the call fail with [EncodingError] and
    leaves the session as it was, and a value the encoder accepts is
    stored as the null marker or the delimiter, the state staying what
    it was. *)
Theorem set_null_and_delimiter_in_every_state (c : Connection) (v : PyObject) :
  Export_set_null {| conn := Some c |} [v]
  = Some (if null_kind_ok v
          then (Value Py_None, {| conn := Some (with_null c v) |})
          else (NULL EncodingError, {| conn := Some c |}))
  /\ Export_set_delimiter {| conn := Some c |} [v]
     = Some (if delimiter_kind_ok v
             then (Value Py_None, {| conn := Some (with_delimiter c v) |})
             else (NULL EncodingError, {| conn := Some c |}))
  /\ state (with_null c v) = state c
  /\ state (with_delimiter c v) = state c.
Proof.
  repeat split.
  - unfold Export_set_null, encoder_set_null; simpl.
    destruct (null_kind_ok v); simpl; [ reflexivity | ].
    destruct c; reflexivity.
  - unfold Export_set_delimiter, encoder_set_delimiter; simpl.
    destruct (delimiter_kind_ok v); simpl; [ reflexivity | ].
    destruct c; reflexivity.
Qed.

(* --------------------------------------------------------------- *)
(** ** Further properties of the merge *)

Lemma uint32_of_high_bits (x : Z) :
  (forall i, 32 <= i -> Z.testbit x i = false) -> is_uint32 x.
Proof.
  intros H.
  assert (E : x = Z.land x (Z.ones 32)).
  { apply Z.bits_inj'; intros i Hi.
    rewrite Z.land_spec, Z.testbit_ones_nonneg by lia.
    destruct (Z.ltb_spec i 32) as [Hlt | Hge].
    - now rewrite andb_true_r.
    - now rewrite (H i Hge). }
  rewrite E, Z.land_ones by lia. unfold is_uint32.
  apply Z.mod_pos_bound. reflexivity.
Qed.

Lemma branch_uint32 (k : Category) (current settings : Z) :
  is_uint32 settings -> is_uint32 (branch k current settings).
Proof.
  intros Hs. apply uint32_of_high_bits. intros i Hi. unfold branch.
  rewrite Z.lor_spec, Z.land_spec, not32_spec by lia.
  rewrite (uint32_high_bit settings i Hs Hi).
  destruct (Z.ltb_spec i 32); [ lia | ].
  now rewrite !andb_false_r.
Qed.

Lemma branch_twice (k : Category) (current settings : Z) :
  branch k (branch k current settings) settings = branch k current settings.
Proof.
  unfold branch. apply Z.bits_inj'; intros i Hi.
  rewrite !Z.lor_spec, !Z.land_spec, Z.lor_spec, Z.land_spec, not32_spec
    by exact Hi.
  destruct (Z.testbit current i), (Z.testbit (mask_of k) i),
    (Z.testbit settings i), (i <? 32); reflexivity.
Qed.

Lemma overwrite_twice (a : Category) (m1 m2 d : Z) :
  overwrite_category a m2 (overwrite_category a m1 d)
  = overwrite_category a m2 d.
Proof.
  unfold overwrite_category. apply Z.bits_inj'; intros i Hi.
  rewrite !Z.lor_spec, !Z.ldiff_spec, Z.lor_spec, Z.ldiff_spec, !Z.land_spec.
  destruct (Z.testbit d i), (Z.testbit m1 i), (Z.testbit m2 i),
    (Z.testbit (mask_of a) i); reflexivity.
Qed.

Lemma lor_eq_r_iff (a b : Z) : Z.lor a b = b <-> Z.land a b = a.
Proof.
  split; intros H.
  - rewrite <- H. apply Z.bits_inj'; intros i _.
    rewrite Z.land_spec, Z.lor_spec.
    destruct (Z.testbit a i), (Z.testbit b i); reflexivity.
  - rewrite <- H. apply Z.bits_inj'; intros i _.
    rewrite Z.lor_spec, Z.land_spec.
    destruct (Z.testbit a i), (Z.testbit b i); reflexivity.
Qed.

Lemma last_category_only (k : Category) (settings : Z) :
  category_bits k settings <> 0 ->
  (forall k', k' <> k -> category_bits k' settings = 0) ->
  last_category settings = Some k.
Proof.
  intros Hk Hothers. apply Z.eqb_neq in Hk. unfold last_category.
  destruct k.
  - rewrite (Hothers DecimalReturn), (Hothers DatetimeReturn), Hk
      by discriminate. reflexivity.
  - rewrite (Hothers DecimalReturn), Hk by discriminate. reflexivity.
  - rewrite Hk. reflexivity.
Qed.

(** X3.  Whatever the encoder currently stores, the value
    [set_encoding] hands to the encoder for a parsed argument is a 32-bit
    value. *)
Theorem submitted_settings_fit_32_bits
    (args : list PyObject) (current settings : Z) :
  PyArg_ParseTuple_i args = Some settings ->
  is_uint32 settings /\ is_uint32 (new_settings current settings).
Proof.
  intros Hp. pose proof (PyArg_ParseTuple_i_uint32 args settings Hp) as Hs.
  split; [ exact Hs | ].
  rewrite new_settings_last. destruct (last_category settings).
  - now apply branch_uint32.
  - split; [ reflexivity | reflexivity ].
Qed.

(** X6.  When a request has bits in several categories, the category
    tested last takes exactly the request's bits, and every other category
    ends up with its current bits or-ed with the request's: such a
    category holds the requested value afterwards exactly when its current
    bits are among the requested ones. *)
Theorem several_categories_last_replaced_others_ored
    (k : Category) (current settings : Z) :
  masks_ok -> last_category settings = Some k ->
  category_bits k (new_settings current settings) = category_bits k settings
  /\ (forall k', k' <> k ->
        category_bits k' (new_settings current settings)
        = Z.lor (category_bits k' current) (category_bits k' settings))
  /\ (forall k', k' <> k ->
        category_bits k' (new_settings current settings)
        = category_bits k' settings
        <-> Z.land (category_bits k' current) (category_bits k' settings)
            = category_bits k' current).
Proof.
  intros Hok Hk. split; [ | split ].
  - now apply new_settings_last_category.
  - intros k' Hne. now apply new_settings_other_category with (k := k).
  - intros k' Hne.
    rewrite (new_settings_other_category k k') by assumption.
    apply lor_eq_r_iff.
Qed.

(** X7.  The merge never sets a bit that is neither stored nor requested,
    and once some category test fires, the bits outside the three
    categories only accumulate: those of the result are the stored ones
    together with the requested ones. *)
Theorem stray_bits_accumulate (current settings : Z) :
  Z.land (new_settings current settings) (Z.lor current settings)
  = new_settings current settings
  /\ (forall k, is_uint32 current -> last_category settings = Some k ->
        stray_bits (new_settings current settings)
        = Z.lor (stray_bits current) (stray_bits settings)).
Proof.
  split.
  - rewrite new_settings_last. destruct (last_category settings) as [k | ].
    + unfold branch. apply Z.bits_inj'; intros i Hi.
      rewrite !Z.land_spec, !Z.lor_spec, Z.land_spec, not32_spec by exact Hi.
      destruct (Z.testbit current i), (Z.testbit (mask_of k) i),
        (Z.testbit settings i), (i <? 32); reflexivity.
    + reflexivity.
  - intros k Hc Hk. rewrite new_settings_last, Hk.
    unfold stray_bits, branch. apply Z.bits_inj'; intros i Hi.
    rewrite !Z.lor_spec, !Z.ldiff_spec, Z.lor_spec, Z.land_spec, not32_spec
      by exact Hi.
    destruct (Z.ltb_spec i 32) as [Hlt | Hge].
    + destruct k; simpl;
        destruct (Z.testbit current i), (Z.testbit settings i),
          (Z.testbit ROW_RETURN_MASK i), (Z.testbit DATETIME_RETURN_MASK i),
          (Z.testbit DECIMAL_RETURN_MASK i); reflexivity.
    + rewrite (uint32_high_bit current i Hc Hge).
      destruct (Z.testbit settings i), (Z.testbit ROW_RETURN_MASK i),
        (Z.testbit DATETIME_RETURN_MASK i), (Z.testbit DECIMAL_RETURN_MASK i);
        reflexivity.
Qed.


(* --------------------------------------------------------------- *)
(** ** Further properties of [set_encoding] *)

Lemma new_settings_twice (current settings : Z) :
  new_settings (new_settings current settings) settings
  = new_settings current settings.
Proof.
  rewrite !new_settings_last. destruct (last_category settings).
  - apply branch_twice.
  - reflexivity.
Qed.

Lemma run_one_set_encoding (c : Connection) (args : list PyObject) (settings : Z) :
  PyArg_ParseTuple_i args = Some settings ->
  run {| conn := Some c |} [(set_encoding, args)]
  = Some {| conn := Some
       (if valid_encoding (new_settings (Settings (encoder c)) settings)
        then with_settings c (new_settings (Settings (encoder c)) settings)
        else c) |}.
Proof.
  intros Hp. cbn [run Export_methods].
  destruct (valid_encoding (new_settings (Settings (encoder c)) settings)) eqn:Hv.
  - now rewrite (set_encoding_accepted {| conn := Some c |} c args settings
                   eq_refl Hp Hv).
  - now rewrite (set_encoding_refused {| conn := Some c |} c args settings
                   eq_refl Hp Hv).
Qed.

Lemma run_app (calls1 calls2 : list (Method * list PyObject)) :
  forall self,
    run self (calls1 ++ calls2)
    = match run self calls1 with
      | Some self' => run self' calls2
      | None => None
      end.
Proof.
  induction calls1 as [ | [m args] rest IH]; intros self; simpl.
  - reflexivity.
  - destruct (Export_methods m self args) as [[r self'] | ]; [ apply IH | reflexivity ].
Qed.

(** X4.  Repeating a request changes nothing: the value computed from
    the result of a merge and the same request is that result again, and
    two [set_encoding] calls with the same arguments leave the object
    exactly as one call does. *)
Theorem set_encoding_twice_is_once :
  (forall current settings,
     new_settings (new_settings current settings) settings
     = new_settings current settings)
  /\ (forall self args,
        run self [(set_encoding, args); (set_encoding, args)]
        = run self [(set_encoding, args)]).
Proof.
  split; [ exact new_settings_twice | ].
  intros self args.
  change [(set_encoding, args); (set_encoding, args)]
    with ([(set_encoding, args)] ++ [(set_encoding, args)]).
  rewrite run_app.
  destruct (PyArg_ParseTuple_i args) as [settings | ] eqn:Hp.
  - destruct self as [[c | ]].
    + rewrite (run_one_set_encoding c args settings Hp).
      destruct (valid_encoding (new_settings (Settings (encoder c)) settings))
        eqn:Hv.
      * rewrite (run_one_set_encoding _ args settings Hp).
        cbn [with_settings set_encoder encoder Settings].
        rewrite new_settings_twice, Hv. reflexivity.
      * rewrite (run_one_set_encoding c args settings Hp), Hv. reflexivity.
    + cbn [run Export_methods]. unfold Export_set_encoding, on_conn.
      rewrite Hp. reflexivity.
  - cbn [run Export_methods]. unfold Export_set_encoding.
    rewrite Hp. reflexivity.
Qed.

(** X5.  Of two requests confined to the same category the later one
    wins: merging the second into the result of the first gives what
    merging the second alone gives, and when the encoder accepts that
    value, the two calls leave the object as the second call alone does. *)
Theorem later_request_in_same_category_wins
    (a : Category) (d m1 m2 : Z) :
  masks_ok -> is_uint32 d -> in_category a m1 -> in_category a m2 ->
  new_settings (new_settings d m1) m2 = new_settings d m2
  /\ (forall c args1 args2,
        Settings (encoder c) = d ->
        PyArg_ParseTuple_i args1 = Some m1 ->
        PyArg_ParseTuple_i args2 = Some m2 ->
        valid_encoding (new_settings d m2) = true ->
        run {| conn := Some c |} [(set_encoding, args1); (set_encoding, args2)]
        = run {| conn := Some c |} [(set_encoding, args2)]).
Proof.
  intros Hok Hd H1 H2.
  assert (E : new_settings (new_settings d m1) m2 = new_settings d m2).
  { rewrite (two_single_categories a a d m1 m2 Hok Hd H1 H2), overwrite_twice.
    rewrite (new_settings_single a d m2 Hok H2).
    symmetry. now apply branch_is_overwrite. }
  split; [ exact E | ].
  intros c args1 args2 Hc Hp1 Hp2 Hv2. subst d.
  change [(set_encoding, args1); (set_encoding, args2)]
    with ([(set_encoding, args1)] ++ [(set_encoding, args2)]).
  rewrite run_app, (run_one_set_encoding c args1 m1 Hp1).
  destruct (valid_encoding (new_settings (Settings (encoder c)) m1)).
  - rewrite !(run_one_set_encoding _ args2 m2 Hp2).
    cbn [with_settings set_encoder encoder Settings].
    rewrite E, Hv2. reflexivity.
  - reflexivity.
Qed.

(** X8.  A request with bits in one category only, whatever bits it has
    outside the three categories: once accepted, the stored settings hold
    the request's bits in that category and the bits they had in the two
    other categories, and the null marker and the delimiter are what they
    were. *)
Theorem single_category_request_is_scoped
    (self : Export) (c : Connection) (args : list PyObject)
    (settings : Z) (k : Category) :
  masks_ok ->
  conn self = Some c ->
  PyArg_ParseTuple_i args = Some settings ->
  category_bits k settings <> 0 ->
  (forall k', k' <> k -> category_bits k' settings = 0) ->
  valid_encoding (new_settings (Settings (encoder c)) settings) = true ->
  exists self',
    Export_set_encoding self args = Some (Value Py_None, self')
    /\ option_map (category_bits k) (stored_settings self')
       = Some (category_bits k settings)
    /\ (forall k', k' <> k ->
          option_map (category_bits k') (stored_settings self')
          = Some (category_bits k' (Settings (encoder c))))
    /\ null_marker self' = null_marker self
    /\ delimiter_value self' = delimiter_value self.
Proof.
  intros Hok Hc Hp Hk Hothers Hv.
  pose proof (last_category_only k settings Hk Hothers) as Hlast.
  destruct (new_settings_one_category k (Settings (encoder c)) settings
              Hok Hlast Hothers) as [Hsame Hrest].
  eexists. split; [ | split; [ | split; [ | split ] ] ].
  - exact (set_encoding_accepted self c args settings Hc Hp Hv).
  - unfold stored_settings; simpl. now rewrite Hsame.
  - intros k' Hne. unfold stored_settings; simpl. now rewrite (Hrest k' Hne).
  - unfold null_marker. rewrite Hc. reflexivity.
  - unfold delimiter_value. rewrite Hc. reflexivity.
Qed.

(** X9.  The mask is read as a C [int]: a 32-bit mask [s] reaches the
    code through exactly one Python integer, [s] itself below [2^31] and
    [s - 2^32] from there on, and the integer [s] is refused as soon as
    bit 31 is set. *)
Theorem mask_is_parsed_as_signed_int (s : Z) :
  is_uint32 s ->
  PyArg_ParseTuple_i [PyLong (int32_of_uint32 s)] = Some s
  /\ (forall n, PyArg_ParseTuple_i [PyLong n] = Some s -> n = int32_of_uint32 s)
  /\ (2 ^ 31 <= s -> PyArg_ParseTuple_i [PyLong s] = None).
Proof.
  intros [Hlo Hhi]. unfold PyArg_ParseTuple_i, arg_i, int32_of_uint32,
    uint32_of_int.
  change INT_MIN with (-2147483648).
  change INT_MAX with 2147483647.
  change (2 ^ 31) with 2147483648 in *.
  change (2 ^ 32) with 4294967296 in *.
  split; [ | split ].
  - destruct (Z.ltb_spec s 2147483648) as [Hlt | Hge].
    + destruct (Z.leb_spec (-2147483648) s); [ | lia ].
      destruct (Z.leb_spec s 2147483647); [ | lia ].
      simpl. f_equal. apply Z.mod_small. lia.
    + destruct (Z.leb_spec (-2147483648) (s - 4294967296)); [ | lia ].
      destruct (Z.leb_spec (s - 4294967296) 2147483647); [ | lia ].
      simpl. f_equal.
      symmetry. apply (Z.mod_unique _ _ (-1)); lia.
  - intros n.
    destruct (Z.leb_spec (-2147483648) n) as [H1 | ]; simpl; [ | discriminate ].
    destruct (Z.leb_spec n 2147483647) as [H2 | ]; simpl; [ | discriminate ].
    intros [= Hn].
    assert (Hmod : n mod 4294967296 = if n <? 0 then n + 4294967296 else n).
    { destruct (Z.ltb_spec n 0).
      - symmetry. apply (Z.mod_unique _ _ (-1)); lia.
      - apply Z.mod_small. lia. }
    rewrite Hmod in Hn.
    destruct (Z.ltb_spec n 0), (Z.ltb_spec s 2147483648); lia.
  - intros Hge.
    destruct (Z.leb_spec (-2147483648) s); simpl; [ | reflexivity ].
    destruct (Z.leb_spec s 2147483647); simpl; [ lia | reflexivity ].
Qed.


(* --------------------------------------------------------------- *)
(** ** The connection pointer *)

Lemma on_conn_none (self : Export) (f : Connection -> PyReturn * Connection) :
  on_conn self f = None <-> conn self = None.
Proof.
  unfold on_conn. destruct (conn self) as [c | ].
  - destruct (f c). split; discriminate.
  - split; reflexivity.
Qed.

Local Ltac null_iff :=
  rewrite on_conn_none;
  split; [ intros H; split; [ reflexivity | exact H ] | intros [_ H]; exact H ].

Local Ltac refused_iff :=
  split; [ discriminate | intros [H _]; discriminate H ].

Lemma method_on_null (m : Method) (self : Export) (args : list PyObject) :
  parses m args = true -> conn self = None ->
  Export_methods m self args = None.
Proof.
  intros Hp Hc. destruct self as [[c | ]]; [ discriminate | clear Hc ].
  destruct m; cbv [Export_methods METH_NOARGS parses is_some] in *.
  - unfold Export_add_attribute.
    destruct (PyArg_ParseTuple_iO args) as [[key value] | ];
      [ reflexivity | discriminate ].
  - destruct args; [ reflexivity | discriminate ].
  - destruct args; [ reflexivity | discriminate ].
  - destruct args; [ reflexivity | discriminate ].
  - destruct args; [ reflexivity | discriminate ].
  - unfold Export_set_encoding.
    destruct (PyArg_ParseTuple_i args); [ reflexivity | discriminate ].
  - unfold Export_set_null.
    destruct (PyArg_ParseTuple_O args); [ reflexivity | discriminate ].
  - unfold Export_set_delimiter.
    destruct (PyArg_ParseTuple_O args); [ reflexivity | discriminate ].
  - unfold Export_set_query.
    destruct (PyArg_ParseTuple_s args); [ reflexivity | discriminate ].
Qed.

Lemma method_keeps_connection (m : Method) (c : Connection) (args : list PyObject) :
  exists r c',
    Export_methods m {| conn := Some c |} args = Some (r, {| conn := Some c' |}).
Proof.
  destruct m; cbv [Export_methods METH_NOARGS].
  - unfold Export_add_attribute.
    destruct (PyArg_ParseTuple_iO args) as [[key value] | ]; [ | now eauto ].
    rewrite on_conn_some. eauto.
  - destruct args; [ | now eauto ]. unfold Export_close.
    rewrite on_conn_some. eauto.
  - destruct args; [ | now eauto ]. unfold Export_columns.
    rewrite on_conn_some. eauto.
  - destruct args; [ | now eauto ]. unfold Export_get_buffer.
    rewrite on_conn_some. eauto.
  - destruct args; [ | now eauto ]. unfold Export_initiate.
    rewrite on_conn_some. eauto.
  - unfold Export_set_encoding.
    destruct (PyArg_ParseTuple_i args); [ | now eauto ].
    rewrite on_conn_some. eauto.
  - unfold Export_set_null.
    destruct (PyArg_ParseTuple_O args); [ | now eauto ].
    rewrite on_conn_some. eauto.
  - unfold Export_set_delimiter.
    destruct (PyArg_ParseTuple_O args); [ | now eauto ].
    rewrite on_conn_some. eauto.
  - unfold Export_set_query.
    destruct (PyArg_ParseTuple_s args); [ | now eauto ].
    rewrite on_conn_some. eauto.
Qed.

Lemma method_refusal (m : Method) (self : Export) (args : list PyObject) :
  parses m args = false ->
  Export_methods m self args = Some (NULL ArgumentError, self).
Proof.
  destruct m; cbv [Export_methods METH_NOARGS parses is_some];
    try (destruct args; [ discriminate | reflexivity ]).
  - unfold Export_add_attribute.
    destruct (PyArg_ParseTuple_iO args); [ discriminate | reflexivity ].
  - unfold Export_set_encoding.
    destruct (PyArg_ParseTuple_i args); [ discriminate | reflexivity ].
  - unfold Export_set_null.
    destruct (PyArg_ParseTuple_O args); [ discriminate | reflexivity ].
  - unfold Export_set_delimiter.
    destruct (PyArg_ParseTuple_O args); [ discriminate | reflexivity ].
  - unfold Export_set_query.
    destruct (PyArg_ParseTuple_s args); [ discriminate | reflexivity ].
Qed.

(** X1.  A method call dereferences a [NULL] connection exactly when its
    arguments parse and the object has not been through [Export_init];
    in every other case it returns. *)
Theorem method_dereferences_null_iff
    (m : Method) (self : Export) (args : list PyObject) :
  Export_methods m self args = None
  <-> parses m args = true /\ conn self = None.
Proof.
  destruct m; cbv [Export_methods METH_NOARGS parses is_some].
  - unfold Export_add_attribute.
    destruct (PyArg_ParseTuple_iO args) as [[key value] | ];
      [ null_iff | refused_iff ].
  - destruct args; [ unfold Export_close; null_iff | refused_iff ].
  - destruct args; [ unfold Export_columns; null_iff | refused_iff ].
  - destruct args; [ unfold Export_get_buffer; null_iff | refused_iff ].
  - destruct args; [ unfold Export_initiate; null_iff | refused_iff ].
  - unfold Export_set_encoding.
    destruct (PyArg_ParseTuple_i args); [ null_iff | refused_iff ].
  - unfold Export_set_null.
    destruct (PyArg_ParseTuple_O args); [ null_iff | refused_iff ].
  - unfold Export_set_delimiter.
    destruct (PyArg_ParseTuple_O args); [ null_iff | refused_iff ].
  - unfold Export_set_query.
    destruct (PyArg_ParseTuple_s args); [ null_iff | refused_iff ].
Qed.

(** X11.  A script run on a constructed object never dereferences [NULL]
    and leaves a constructed object; run on an object that has not been
    through [Export_init], it gets through only if every call in it is
    refused at parsing, and then the object is untouched. *)
Theorem script_needs_a_constructed_object
    (calls : list (Method * list PyObject)) :
  (forall c, exists c',
      run {| conn := Some c |} calls = Some {| conn := Some c' |})
  /\ run Export_new calls
     = if all_refused calls then Some Export_new else None.
Proof.
  split.
  - induction calls as [ | [m args] rest IH]; intros c; simpl.
    + eauto.
    + destruct (method_keeps_connection m c args) as (r & c1 & ->).
      apply IH.
  - induction calls as [ | [m args] rest IH]; simpl.
    + reflexivity.
    + destruct (parses m args) eqn:Hp; simpl.
      * now rewrite (method_on_null m Export_new args Hp eq_refl).
      * rewrite (method_refusal m Export_new args Hp). exact IH.
Qed.

Lemma encoder_method_result
    (m : Method) (c : Connection) (args : list PyObject)
    (r : PyReturn) (self' : Export) :
  encoder_method m = true ->
  Export_methods m {| conn := Some c |} args = Some (r, self') ->
  exists e, self' = {| conn := Some (set_encoder c e) |}.
Proof.
  destruct m; try discriminate; intros _; cbv [Export_methods].
  - unfold Export_set_encoding.
    destruct (PyArg_ParseTuple_i args) as [settings | ].
    + rewrite on_conn_some.
      destruct (encoder_set_encoding _ _) as [status e].
      destruct (status =? 0); intros [= <- <-]; now exists e.
    + intros [= <- <-]. exists (encoder c). now rewrite set_encoder_same.
  - unfold Export_set_null.
    destruct (PyArg_ParseTuple_O args) as [null | ].
    + rewrite on_conn_some.
      destruct (encoder_set_null _ _) as [r' e].
      intros [= <- <-]. now exists e.
    + intros [= <- <-]. exists (encoder c). now rewrite set_encoder_same.
  - unfold Export_set_delimiter.
    destruct (PyArg_ParseTuple_O args) as [delimiter | ].
    + rewrite on_conn_some.
      destruct (encoder_set_delimiter _ _) as [r' e].
      intros [= <- <-]. now exists e.
    + intros [= <- <-]. exists (encoder c). now rewrite set_encoder_same.
Qed.

(** X10.  [set_encoding], [set_null] and [set_delimiter] write nothing
    but the encoder: whatever the arguments and whatever the encoder
    answers, the credentials, the attribute store, the query, the state,
    the schema, the buffer position and the handle are what they were. *)
Theorem encoder_methods_touch_only_the_encoder
    (m : Method) (c : Connection) (args : list PyObject)
    (r : PyReturn) (self' : Export) :
  encoder_method m = true ->
  Export_methods m {| conn := Some c |} args = Some (r, self') ->
  exists c',
    self' = {| conn := Some c' |}
    /\ host c' = host c /\ username c' = username c
    /\ password c' = password c
    /\ attributes c' = attributes c /\ query c' = query c
    /\ state c' = state c /\ schema c' = schema c
    /\ cursor c' = cursor c /\ released c' = released c.
Proof.
  intros Hm Hcall.
  destruct (encoder_method_result m c args r self' Hm Hcall) as [e ->].
  exists (set_encoder c e). repeat split.
Qed.

(* --------------------------------------------------------------- *)
(** ** The constructor *)

Lemma arg_s_some (o : PyObject) (s : string) :
  arg_s o = Some s <-> o = PyUnicode s /\ has_nul s = false.
Proof.
  unfold arg_s. destruct o; try (split; [ discriminate | intros [H _]; discriminate H ]).
  destruct (has_nul s0) eqn:E.
  - split; [ discriminate | ]. intros [[= ->] H]. congruence.
  - split.
    + intros [= ->]. now split.
    + intros [[= ->] _]. reflexivity.
Qed.

Lemma parse_sss_some (args : list PyObject) (h u p : string) :
  PyArg_ParseTuple_sss args = Some (h, u, p)
  <-> args = [PyUnicode h; PyUnicode u; PyUnicode p]
      /\ has_nul h = false /\ has_nul u = false /\ has_nul p = false.
Proof.
  unfold PyArg_ParseTuple_sss. split.
  - destruct args as [ | a [ | b [ | c [ | ? ? ] ] ] ]; try discriminate.
    destruct (arg_s a) as [h' | ] eqn:Ha; [ | discriminate ].
    destruct (arg_s b) as [u' | ] eqn:Hb; [ | discriminate ].
    destruct (arg_s c) as [p' | ] eqn:Hc; [ | discriminate ].
    intros [= -> -> ->].
    apply arg_s_some in Ha, Hb, Hc.
    destruct Ha as [-> ?], Hb as [-> ?], Hc as [-> ?]. auto.
  - intros (-> & Hh & Hu & Hp). simpl. now rewrite Hh, Hu, Hp.
Qed.

(** X2.  [Export_init] succeeds exactly on three text arguments that
    encode to UTF-8 without an embedded NUL.  When it fails it returns
    [-1] and leaves the object as it was; when it succeeds the object it
    leaves does not depend on what the object held before: a second
    construction drops the earlier connection with everything configured
    on it. *)
Theorem init_outcomes (self : Export) (args : list PyObject) :
  (fst (Export_init self args) = 0
   <-> exists h u p,
         args = [PyUnicode h; PyUnicode u; PyUnicode p]
         /\ has_nul h = false /\ has_nul u = false /\ has_nul p = false)
  /\ (fst (Export_init self args) <> 0 -> Export_init self args = (-1, self))
  /\ (fst (Export_init self args) = 0 ->
      forall other, Export_init self args = Export_init other args).
Proof.
  unfold Export_init.
  destruct (PyArg_ParseTuple_sss args) as [[[h u] p] | ] eqn:Hp; simpl.
  - split; [ | split ].
    + split; [ intros _ | reflexivity ].
      exists h, u, p. now apply parse_sss_some.
    + intros H. now contradiction H.
    + reflexivity.
  - split; [ | split ].
    + split; [ discriminate | ].
      intros (h & u & p & H). apply parse_sss_some in H. congruence.
    + reflexivity.
    + discriminate.
Qed.



End ExportObject.

(* ================================================================= *)
(** * The model on the sample environment *)

Local Abbreviation sample_new_settings :=
  (new_settings Sample.ROW_RETURN_MASK Sample.DATETIME_RETURN_MASK
     Sample.DECIMAL_RETURN_MASK).

Local Abbreviation sample_category_bits :=
  (category_bits Sample.ROW_RETURN_MASK Sample.DATETIME_RETURN_MASK
     Sample.DECIMAL_RETURN_MASK).

Local Abbreviation sample_spec_merge :=
  (spec_merge Sample.ROW_RETURN_MASK Sample.DATETIME_RETURN_MASK
     Sample.DECIMAL_RETURN_MASK).

Local Abbreviation sample_set_encoding valid :=
  (Export_set_encoding Sample.ROW_RETURN_MASK Sample.DATETIME_RETURN_MASK
     Sample.DECIMAL_RETURN_MASK valid).

Local Abbreviation sample_init :=
  (Export_init Sample.ENCODER_SETTINGS_DEFAULT Sample.TD_EXPORT
     Sample.TERADATA_CHARSET Sample.TD_ROW_MAX_SIZE).

Local Abbreviation sample_run :=
  (run Sample.ROW_RETURN_MASK Sample.DATETIME_RETURN_MASK
     Sample.DECIMAL_RETURN_MASK Sample.valid_encoding Sample.text_or_none
     Sample.text_or_none Sample.TD_Attribute_of_int Sample.transport_initiate
     Sample.transport_get_buffer).

Local Abbreviation sample_methods :=
  (Export_methods Sample.ROW_RETURN_MASK Sample.DATETIME_RETURN_MASK
     Sample.DECIMAL_RETURN_MASK Sample.valid_encoding Sample.text_or_none
     Sample.text_or_none Sample.TD_Attribute_of_int Sample.transport_initiate
     Sample.transport_get_buffer).

(** C1.  A request with bits in the row and in the datetime category, on a
    session whose row category holds another value: the value handed to
    the encoder keeps the old row bit next to the requested one, where
    the category-scoped merge replaces it; whatever the encoder decides,
    the row category stored afterwards is not the requested one. *)
Theorem set_encoding_two_categories_keeps_old_row_bits :
  sample_new_settings 0x010101 0x0202 = 0x010203
  /\ sample_spec_merge 0x010101 0x0202 = 0x010202
  /\ sample_category_bits RowReturn (sample_new_settings 0x010101 0x0202) = 0x03
  /\ sample_category_bits RowReturn 0x0202 = 0x02
  /\ sample_set_encoding Sample.accept_all (Sample.session 0x010101) [PyLong 0x0202]
     = Some (Value Py_None, Sample.session 0x010203)
  /\ (forall valid, exists r self',
        sample_set_encoding valid (Sample.session 0x010101) [PyLong 0x0202]
        = Some (r, self')
        /\ option_map (sample_category_bits RowReturn) (stored_settings self')
           <> Some 0x02).
Proof.
  repeat split; try reflexivity.
  intros valid.
  pose proof (eq_refl : PyArg_ParseTuple_i [PyLong 0x0202] = Some 0x0202) as Hp.
  destruct (valid (sample_new_settings
                     (Settings (encoder (Sample.connection_full Created None
                                           0x010101 None None))) 0x0202))
    eqn:Hv.
  - do 2 eexists. split.
    + exact (set_encoding_accepted _ _ _ valid (Sample.session 0x010101) _
               _ _ eq_refl Hp Hv).
    + vm_compute. discriminate.
  - do 2 eexists. split.
    + exact (set_encoding_refused _ _ _ valid (Sample.session 0x010101) _
               _ _ eq_refl Hp Hv).
    + vm_compute. discriminate.
Qed.


(** C2, the claim as stated fails: the row value [0x10] is not one the
    sample encoder supports, so the call that requests it is refused and
    stores nothing; after the two calls, in either order, the stored
    settings are the default with the datetime category overwritten only,
    not the default with both categories overwritten. *)
Lemma set_encoding_refused_request_is_not_merged :
  in_category Sample.ROW_RETURN_MASK Sample.DATETIME_RETURN_MASK
    Sample.DECIMAL_RETURN_MASK RowReturn 0x10
  /\ in_category Sample.ROW_RETURN_MASK Sample.DATETIME_RETURN_MASK
       Sample.DECIMAL_RETURN_MASK DatetimeReturn 0x0200
  /\ stored_settings (snd (sample_init Export_new Sample.credentials))
     = Some Sample.ENCODER_SETTINGS_DEFAULT
  /\ overwrite_category Sample.ROW_RETURN_MASK Sample.DATETIME_RETURN_MASK
       Sample.DECIMAL_RETURN_MASK DatetimeReturn 0x0200
       (overwrite_category Sample.ROW_RETURN_MASK Sample.DATETIME_RETURN_MASK
          Sample.DECIMAL_RETURN_MASK RowReturn 0x10
          Sample.ENCODER_SETTINGS_DEFAULT)
     = 0x010210
  /\ option_map stored_settings
       (sample_run (snd (sample_init Export_new Sample.credentials))
          [ (set_encoding, [PyLong 0x10]); (set_encoding, [PyLong 0x0200]) ])
     = Some (Some 0x010201)
  /\ option_map stored_settings
       (sample_run (snd (sample_init Export_new Sample.credentials))
          [ (set_encoding, [PyLong 0x0200]); (set_encoding, [PyLong 0x10]) ])
     = Some (Some 0x010201).
Proof.
  repeat split; discriminate.
Qed.

(** The script that opens the stream on the sample transport. *)
Local Abbreviation open_stream :=
  [ (set_query, [PyUnicode "SELECT id, name FROM t"]); (initiate, []) ].

(** C8, the claim as stated fails: on an [Active] session, one reached by
    constructing, setting the query and initiating, [set_null] and
    [set_delimiter] are not rejected; they return [None] and the encoder
    holds the new null marker and delimiter. *)
Lemma set_null_on_active_session_takes_effect :
  session_state (Sample.session_in Active 0x010101) = Some Active
  /\ Export_set_null Sample.text_or_none
       (Sample.session_in Active 0x010101) [PyUnicode "NULL"]
     = Some (Value Py_None,
             Sample.session_full Active 0x010101 (Some (PyUnicode "NULL")) None)
  /\ Export_set_delimiter Sample.text_or_none
       (Sample.session_in Active 0x010101) [PyUnicode ","]
     = Some (Value Py_None,
             Sample.session_full Active 0x010101 None (Some (PyUnicode ",")))
  /\ option_map session_state
       (sample_run (snd (sample_init Export_new Sample.credentials)) open_stream)
     = Some (Some Active)
  /\ option_map null_marker
       (sample_run (snd (sample_init Export_new Sample.credentials))
          (open_stream ++ [ (set_null, [PyUnicode "NULL"]) ]))
     = Some (Some (PyUnicode "NULL"))
  /\ option_map delimiter_value
       (sample_run (snd (sample_init Export_new Sample.credentials))
          (open_stream ++ [ (set_delimiter, [PyUnicode ","]) ]))
     = Some (Some (PyUnicode ",")).
Proof.
  repeat split.
Qed.

(* ----------------------------------------------------------------- *)
(** ** The theorems at concrete inputs *)

(** C2 on the sample session: a row request and a datetime request. *)
Lemma set_encoding_disjoint_categories_commute_witness :
  sample_new_settings (sample_new_settings 0x010101 0x02) 0x0200 = 0x010202
  /\ sample_new_settings (sample_new_settings 0x010101 0x0200) 0x02 = 0x010202
  /\ sample_run (Sample.session 0x010101)
       [ (set_encoding, [PyLong 0x02]); (set_encoding, [PyLong 0x0200]) ]
     = Some (Sample.session 0x010202)
  /\ sample_run (Sample.session 0x010101)
       [ (set_encoding, [PyLong 0x0200]); (set_encoding, [PyLong 0x02]) ]
     = Some (Sample.session 0x010202).
Proof.
  assert (Hok : masks_ok Sample.ROW_RETURN_MASK Sample.DATETIME_RETURN_MASK
                  Sample.DECIMAL_RETURN_MASK).
  { unfold masks_ok, is_uint32. repeat split; try reflexivity; discriminate. }
  assert (Hd : is_uint32 0x010101) by (split; [ discriminate | reflexivity ]).
  assert (Hab : RowReturn <> DatetimeReturn) by discriminate.
  assert (H1 : in_category Sample.ROW_RETURN_MASK Sample.DATETIME_RETURN_MASK
                 Sample.DECIMAL_RETURN_MASK RowReturn 0x02)
    by (split; [ discriminate | reflexivity ]).
  assert (H2 : in_category Sample.ROW_RETURN_MASK Sample.DATETIME_RETURN_MASK
                 Sample.DECIMAL_RETURN_MASK DatetimeReturn 0x0200)
    by (split; [ discriminate | reflexivity ]).
  destruct (set_encoding_disjoint_categories_commute
              Sample.ROW_RETURN_MASK Sample.DATETIME_RETURN_MASK
              Sample.DECIMAL_RETURN_MASK Sample.valid_encoding
              Sample.text_or_none Sample.text_or_none
              Sample.TD_Attribute_of_int Sample.transport_initiate
              Sample.transport_get_buffer
              RowReturn DatetimeReturn 0x010101 0x02 0x0200
              Hok Hd Hab H1 H2)
    as (E12 & E21 & _ & _ & _ & Hrun).
  destruct (Hrun (Sample.connection_full Created None 0x010101 None None)
              [PyLong 0x02] [PyLong 0x0200]
              eq_refl eq_refl eq_refl eq_refl eq_refl eq_refl)
    as (R12 & R21).
  repeat split; assumption.
Defined.

(** C4 on the sample session: the row value [0x80] is not supported. *)
Lemma set_encoding_invalid_raises_and_rolls_back_witness :
  PyArg_ParseTuple_i [PyLong 0x80] = Some 0x80
  /\ Sample.valid_encoding (sample_new_settings 0x010101 0x80) = false
  /\ sample_set_encoding Sample.valid_encoding (Sample.session 0x010101)
       [PyLong 0x80]
     = Some (NULL (PyExc_ValueError 0x80), Sample.session 0x010101).
Proof.
  split; [ reflexivity | split; [ reflexivity | ] ].
  destruct (set_encoding_invalid_raises_and_rolls_back
              Sample.ROW_RETURN_MASK Sample.DATETIME_RETURN_MASK
              Sample.DECIMAL_RETURN_MASK Sample.valid_encoding
              (Sample.session 0x010101)
              (Sample.connection_full Created None 0x010101 None None)
              [PyLong 0x80] 0x80 eq_refl eq_refl eq_refl)
    as (self' & E & Hsame & _).
  rewrite Hsame in E. exact E.
Defined.

(** C9 on the sample session: bit 24 lies outside the three categories. *)
Lemma set_encoding_passes_whole_mask_witness :
  sample_category_bits RowReturn 0x1000002 <> 0
  /\ Z.land (sample_new_settings 0x010101 0x1000002) 0x1000002 = 0x1000002
  /\ Z.testbit (sample_new_settings 0x010101 0x1000002) 24 = true
  /\ exists self',
       sample_set_encoding Sample.accept_all (Sample.session 0x010101)
         [PyLong 0x1000002] = Some (Value Py_None, self')
       /\ stored_settings self' = Some 0x1010102.
Proof.
  assert (Hk : sample_category_bits RowReturn 0x1000002 <> 0) by discriminate.
  destruct (set_encoding_passes_whole_mask
              Sample.ROW_RETURN_MASK Sample.DATETIME_RETURN_MASK
              Sample.DECIMAL_RETURN_MASK Sample.accept_all
              (Sample.session 0x010101)
              (Sample.connection_full Created None 0x010101 None None)
              [PyLong 0x1000002] 0x1000002 RowReturn eq_refl eq_refl Hk)
    as (Hland & Hbits & _ & Hstored).
  split; [ exact Hk | split; [ exact Hland | split ] ].
  - apply Hbits. reflexivity.
  - exact (Hstored eq_refl).
Defined.

(** C10: a text argument for [set_encoding], a lone key for
    [add_attribute]. *)
Lemma parse_failure_touches_nothing_witness :
  parses set_encoding [PyUnicode "0x02"] = false
  /\ sample_methods set_encoding Export_new [PyUnicode "0x02"]
     = Some (NULL ArgumentError, Export_new)
  /\ sample_methods add_attribute (Sample.session 0x010101) [PyLong 5]
     = Some (NULL ArgumentError, Sample.session 0x010101).
Proof.
  split; [ reflexivity | split ].
  - apply (parse_failure_touches_nothing
             Sample.ROW_RETURN_MASK Sample.DATETIME_RETURN_MASK
             Sample.DECIMAL_RETURN_MASK Sample.valid_encoding
             Sample.text_or_none Sample.text_or_none
             Sample.TD_Attribute_of_int Sample.transport_initiate
             Sample.transport_get_buffer set_encoding Export_new
             [PyUnicode "0x02"]).
    reflexivity.
  - apply (parse_failure_touches_nothing
             Sample.ROW_RETURN_MASK Sample.DATETIME_RETURN_MASK
             Sample.DECIMAL_RETURN_MASK Sample.valid_encoding
             Sample.text_or_none Sample.text_or_none
             Sample.TD_Attribute_of_int Sample.transport_initiate
             Sample.transport_get_buffer add_attribute
             (Sample.session 0x010101) [PyLong 5]).
    reflexivity.
Defined.

(** C5 for the credentials [h], [u], [p]. *)
Lemma init_populates_defaults_witness :
  PyArg_ParseTuple_sss Sample.credentials
  = Some ("h"%string, "u"%string, "p"%string)
  /\ exists c,
       sample_init Export_new Sample.credentials = (0, {| conn := Some c |})
       /\ get_attribute {| conn := Some c |} TD_MIN_SESSIONS = Some (IntValue 2)
       /\ get_attribute {| conn := Some c |} TD_MAX_SESSIONS = Some (IntValue 5)
       /\ get_attribute {| conn := Some c |} TD_SPOOLMODE
          = Some (StrValue "NoSpool")
       /\ List.length (attributes c) = 17%nat.
Proof.
  split; [ reflexivity | ].
  destruct (init_populates_defaults
              Sample.ENCODER_SETTINGS_DEFAULT Sample.TD_EXPORT
              Sample.TERADATA_CHARSET Sample.TD_ROW_MAX_SIZE
              Export_new Sample.credentials "h" "u" "p" eq_refl)
    as (c & Hinit & _ & Hattrs & Hmin & Hmax & H).
  exists c. repeat split; try assumption.
  - apply H.
  - rewrite Hattrs. reflexivity.
Defined.

(** C6 after a script that opens the stream, pulls a buffer and closes. *)
Lemma close_releases_once_and_is_idempotent_witness :
  fst (sample_init Export_new Sample.credentials) = 0
  /\ exists s s',
       sample_run (snd (sample_init Export_new Sample.credentials))
         (open_stream ++ [ (get_buffer, []); (close, []) ]) = Some s
       /\ Export_close s = Some (Value Py_None, s')
       /\ session_state s' = Some Terminated
       /\ handle_releases s' = Some 1%nat
       /\ Export_close s' = Some (Value Py_None, s').
Proof.
  split; [ reflexivity | ].
  destruct (close_releases_once_and_is_idempotent
              Sample.ROW_RETURN_MASK Sample.DATETIME_RETURN_MASK
              Sample.DECIMAL_RETURN_MASK Sample.ENCODER_SETTINGS_DEFAULT
              Sample.valid_encoding Sample.text_or_none Sample.text_or_none
              Sample.TD_EXPORT Sample.TERADATA_CHARSET Sample.TD_ROW_MAX_SIZE
              Sample.TD_Attribute_of_int Sample.transport_initiate
              Sample.transport_get_buffer
              Export_new Sample.credentials
              (open_stream ++ [ (get_buffer, []); (close, []) ]) eq_refl)
    as (s & s' & Hrun & Hclose & Hstate & Hrel & Hagain & _).
  exists s, s'. repeat split; assumption.
Defined.

(** [columns] on a configured connection and on the sample transport. *)
Lemma columns_only_when_active_witness :
  Export_columns {| conn := Some Sample.ready |}
  = Some (NULL LifecycleError, {| conn := Some Sample.ready |})
  /\ Export_columns (snd (sample_init Export_new Sample.credentials))
     = Some (NULL LifecycleError, snd (sample_init Export_new Sample.credentials))
  /\ exists self',
       Export_initiate Sample.transport_initiate {| conn := Some Sample.ready |}
       = Some (Value Py_None, self')
       /\ Export_columns self'
          = Some (Value (PyColumns Sample.two_columns), self').
Proof.
  destruct (columns_only_when_active
              Sample.ENCODER_SETTINGS_DEFAULT Sample.TD_EXPORT
              Sample.TERADATA_CHARSET Sample.TD_ROW_MAX_SIZE
              Sample.transport_initiate Sample.ready)
    as (Hbefore & Hfresh & Hafter).
  split; [ apply Hbefore; discriminate | split ].
  - apply Hfresh. reflexivity.
  - eexists. split; [ reflexivity | ].
    destruct (Hafter _ eq_refl) as (cols & Hcols & _ & Hc).
    injection Hcols as <-. exact Hc.
Defined.

(* ----------------------------------------------------------------- *)
(** ** The further properties at concrete inputs *)

(** X1: [close()] on an object that has not been through [Export_init]. *)
Lemma method_dereferences_null_iff_witness :
  parses close [] = true
  /\ conn Export_new = None
  /\ sample_methods close Export_new [] = None
  /\ parses set_query [PyLong 1] = false.
Proof.
  destruct (method_dereferences_null_iff
              Sample.ROW_RETURN_MASK Sample.DATETIME_RETURN_MASK
              Sample.DECIMAL_RETURN_MASK Sample.valid_encoding
              Sample.text_or_none Sample.text_or_none
              Sample.TD_Attribute_of_int Sample.transport_initiate
              Sample.transport_get_buffer close Export_new [])
    as [_ Hnull].
  split; [ reflexivity | split; [ reflexivity | split ] ].
  - apply Hnull. split; reflexivity.
  - reflexivity.
Defined.

(** X2: a second construction on a configured session, a construction
    with one argument only, and one whose host has a lone surrogate. *)
Lemma init_outcomes_witness :
  fst (sample_init (Sample.session 0x010202) Sample.credentials) = 0
  /\ sample_init (Sample.session 0x010202) Sample.credentials
     = sample_init Export_new Sample.credentials
  /\ sample_init (Sample.session 0x010202) [PyUnicode "h"]
     = (-1, Sample.session 0x010202)
  /\ sample_init (Sample.session 0x010202)
       [PyUnicodeUnencodable [0xd800]; PyUnicode "u"; PyUnicode "p"]
     = (-1, Sample.session 0x010202).
Proof.
  destruct (init_outcomes
              Sample.ENCODER_SETTINGS_DEFAULT Sample.TD_EXPORT
              Sample.TERADATA_CHARSET Sample.TD_ROW_MAX_SIZE
              (Sample.session 0x010202) Sample.credentials)
    as (Hiff & _ & Hsame).
  destruct (init_outcomes
              Sample.ENCODER_SETTINGS_DEFAULT Sample.TD_EXPORT
              Sample.TERADATA_CHARSET Sample.TD_ROW_MAX_SIZE
              (Sample.session 0x010202) [PyUnicode "h"])
    as (_ & Hfail & _).
  destruct (init_outcomes
              Sample.ENCODER_SETTINGS_DEFAULT Sample.TD_EXPORT
              Sample.TERADATA_CHARSET Sample.TD_ROW_MAX_SIZE
              (Sample.session 0x010202)
              [PyUnicodeUnencodable [0xd800]; PyUnicode "u"; PyUnicode "p"])
    as (_ & Hsurrogate & _).
  assert (H0 : fst (sample_init (Sample.session 0x010202) Sample.credentials) = 0).
  { apply Hiff. exists "h"%string, "u"%string, "p"%string.
    repeat split; reflexivity. }
  split; [ exact H0 | split; [ | split ] ].
  - apply Hsame. exact H0.
  - apply Hfail. discriminate.
  - apply Hsurrogate. discriminate.
Defined.

(** X3: the argument [-1], all 32 bits set. *)
Lemma submitted_settings_fit_32_bits_witness :
  PyArg_ParseTuple_i [PyLong (-1)] = Some 0xffffffff
  /\ is_uint32 (sample_new_settings 0x010101 0xffffffff).
Proof.
  split; [ reflexivity | ].
  apply (submitted_settings_fit_32_bits
           Sample.ROW_RETURN_MASK Sample.DATETIME_RETURN_MASK
           Sample.DECIMAL_RETURN_MASK [PyLong (-1)] 0x010101 0xffffffff).
  reflexivity.
Defined.

(** X5: two row requests, [0x02] then [0x04]. *)
Lemma later_request_in_same_category_wins_witness :
  sample_new_settings (sample_new_settings 0x010101 0x02) 0x04
  = sample_new_settings 0x010101 0x04
  /\ sample_run (Sample.session 0x010101)
       [ (set_encoding, [PyLong 0x02]); (set_encoding, [PyLong 0x04]) ]
     = sample_run (Sample.session 0x010101) [ (set_encoding, [PyLong 0x04]) ].
Proof.
  assert (Hok : masks_ok Sample.ROW_RETURN_MASK Sample.DATETIME_RETURN_MASK
                  Sample.DECIMAL_RETURN_MASK).
  { unfold masks_ok, is_uint32. repeat split; try reflexivity; discriminate. }
  assert (Hd : is_uint32 0x010101) by (split; [ discriminate | reflexivity ]).
  assert (H1 : in_category Sample.ROW_RETURN_MASK Sample.DATETIME_RETURN_MASK
                 Sample.DECIMAL_RETURN_MASK RowReturn 0x02)
    by (split; [ discriminate | reflexivity ]).
  assert (H2 : in_category Sample.ROW_RETURN_MASK Sample.DATETIME_RETURN_MASK
                 Sample.DECIMAL_RETURN_MASK RowReturn 0x04)
    by (split; [ discriminate | reflexivity ]).
  destruct (later_request_in_same_category_wins
              Sample.ROW_RETURN_MASK Sample.DATETIME_RETURN_MASK
              Sample.DECIMAL_RETURN_MASK Sample.valid_encoding
              Sample.text_or_none Sample.text_or_none
              Sample.TD_Attribute_of_int Sample.transport_initiate
              Sample.transport_get_buffer
              RowReturn 0x010101 0x02 0x04 Hok Hd H1 H2)
    as [E Hrun].
  split; [ exact E | ].
  exact (Hrun (Sample.connection_full Created None 0x010101 None None)
           [PyLong 0x02] [PyLong 0x04] eq_refl eq_refl eq_refl eq_refl).
Defined.

(** X6: a request with a row bit and a datetime bit. *)
Lemma several_categories_last_replaced_others_ored_witness :
  last_category Sample.ROW_RETURN_MASK Sample.DATETIME_RETURN_MASK
    Sample.DECIMAL_RETURN_MASK 0x0202 = Some DatetimeReturn
  /\ sample_category_bits DatetimeReturn (sample_new_settings 0x010101 0x0202)
     = 0x0200
  /\ sample_category_bits RowReturn (sample_new_settings 0x010101 0x0202)
     = Z.lor 0x01 0x02
  /\ sample_category_bits RowReturn (sample_new_settings 0x010202 0x0202)
     = 0x02.
Proof.
  assert (Hok : masks_ok Sample.ROW_RETURN_MASK Sample.DATETIME_RETURN_MASK
                  Sample.DECIMAL_RETURN_MASK).
  { unfold masks_ok, is_uint32. repeat split; try reflexivity; discriminate. }
  destruct (several_categories_last_replaced_others_ored
              Sample.ROW_RETURN_MASK Sample.DATETIME_RETURN_MASK
              Sample.DECIMAL_RETURN_MASK DatetimeReturn 0x010101 0x0202
              Hok eq_refl)
    as (Hlast & Hother & _).
  destruct (several_categories_last_replaced_others_ored
              Sample.ROW_RETURN_MASK Sample.DATETIME_RETURN_MASK
              Sample.DECIMAL_RETURN_MASK DatetimeReturn 0x010202 0x0202
              Hok eq_refl)
    as (_ & _ & Hiff).
  split; [ reflexivity | split; [ exact Hlast | split ] ].
  - apply (Hother RowReturn). discriminate.
  - apply (Hiff RowReturn); [ discriminate | reflexivity ].
Defined.

(** X7: bit 24 is stored, bit 25 is requested next to a row bit. *)
Lemma stray_bits_accumulate_witness :
  is_uint32 0x1010101
  /\ stray_bits Sample.ROW_RETURN_MASK Sample.DATETIME_RETURN_MASK
       Sample.DECIMAL_RETURN_MASK (sample_new_settings 0x1010101 0x2000002)
     = Z.lor 0x1000000 0x2000000.
Proof.
  assert (Hc : is_uint32 0x1010101) by (split; [ discriminate | reflexivity ]).
  destruct (stray_bits_accumulate
              Sample.ROW_RETURN_MASK Sample.DATETIME_RETURN_MASK
              Sample.DECIMAL_RETURN_MASK 0x1010101 0x2000002)
    as [_ Hstray].
  split; [ exact Hc | ].
  exact (Hstray RowReturn Hc eq_refl).
Defined.

(** X8: a row request carrying bit 24, on an encoder without a check. *)
Lemma single_category_request_is_scoped_witness :
  exists self',
    sample_set_encoding Sample.accept_all (Sample.session 0x010101)
      [PyLong 0x1000002] = Some (Value Py_None, self')
    /\ option_map (sample_category_bits RowReturn) (stored_settings self')
       = Some 0x02
    /\ option_map (sample_category_bits DatetimeReturn) (stored_settings self')
       = Some 0x0100
    /\ option_map (sample_category_bits DecimalReturn) (stored_settings self')
       = Some 0x010000.
Proof.
  assert (Hok : masks_ok Sample.ROW_RETURN_MASK Sample.DATETIME_RETURN_MASK
                  Sample.DECIMAL_RETURN_MASK).
  { unfold masks_ok, is_uint32. repeat split; try reflexivity; discriminate. }
  assert (Hk : sample_category_bits RowReturn 0x1000002 <> 0) by discriminate.
  assert (Hothers : forall k', k' <> RowReturn ->
                               sample_category_bits k' 0x1000002 = 0).
  { intros k' Hne. destruct k'; [ contradiction | reflexivity | reflexivity ]. }
  destruct (single_category_request_is_scoped
              Sample.ROW_RETURN_MASK Sample.DATETIME_RETURN_MASK
              Sample.DECIMAL_RETURN_MASK Sample.accept_all
              (Sample.session 0x010101)
              (Sample.connection_full Created None 0x010101 None None)
              [PyLong 0x1000002] 0x1000002 RowReturn
              Hok eq_refl eq_refl Hk Hothers eq_refl)
    as (self' & Hcall & Hrow & Hrest & _).
  exists self'. split; [ exact Hcall | split; [ exact Hrow | split ] ].
  - apply (Hrest DatetimeReturn). discriminate.
  - apply (Hrest DecimalReturn). discriminate.
Defined.

(** X9: the mask with only bit 31 set. *)
Lemma mask_is_parsed_as_signed_int_witness :
  is_uint32 0x80000000
  /\ PyArg_ParseTuple_i [PyLong (-2147483648)] = Some 0x80000000
  /\ PyArg_ParseTuple_i [PyLong 0x80000000] = None.
Proof.
  assert (Hs : is_uint32 0x80000000) by (split; [ discriminate | reflexivity ]).
  destruct (mask_is_parsed_as_signed_int 0x80000000 Hs) as (Hin & _ & Hout).
  split; [ exact Hs | split; [ exact Hin | ] ].
  apply Hout. discriminate.
Defined.

(** X10: [set_null] on an active session. *)
Lemma encoder_methods_touch_only_the_encoder_witness :
  exists c',
    Export_set_null Sample.text_or_none (Sample.session_in Active 0x010101)
      [PyUnicode "NULL"] = Some (Value Py_None, {| conn := Some c' |})
    /\ state c' = Active /\ attributes c' = [] /\ query c' = None
    /\ released c' = O.
Proof.
  destruct (encoder_methods_touch_only_the_encoder
              Sample.ROW_RETURN_MASK Sample.DATETIME_RETURN_MASK
              Sample.DECIMAL_RETURN_MASK Sample.valid_encoding
              Sample.text_or_none Sample.text_or_none
              Sample.TD_Attribute_of_int Sample.transport_initiate
              Sample.transport_get_buffer set_null
              (Sample.connection_full Active None 0x010101 None None)
              [PyUnicode "NULL"] (Value Py_None) _ eq_refl eq_refl)
    as (c' & Hself & _ & _ & _ & Hattrs & Hquery & Hstate & _ & _ & Hrel).
  exists c'. injection Hself as <-.
  split; [ reflexivity | ]. repeat split.
Defined.

